(** * tf.py: batch conversion of legacy video containers to MP4

    A shallow embedding of [tf.py] and the properties of its file
    lifecycle.  A Python [str] is modelled as the [string] of the bytes of
    its UTF-8 encoding: splitting at ".", joining, appending and searching
    for "Date" act on those bytes as they act on the characters, and
    [str.upper] maps the ASCII letters a-z itself and takes what Unicode
    says about every other character from a table.  The file system is
    a finite map from path strings to nodes, and the effectful functions
    live in a small monad that threads the file system, collects the
    calls made to the outside world and propagates Python exceptions. *)

From Stdlib Require Import Ascii String List Bool Arith Lia.
From stdpp Require Import base option list strings gmap fin_maps.

Module Tf.

#[local] Arguments String.append !s1 s2 : simpl nomatch.

(** ** Python string primitives *)

Definition dot : ascii := "."%char.

(** [s.split(sep)] for a one-character separator: never the empty list. *)
Fixpoint split (sep : ascii) (s : string) : list string :=
  match s with
  | EmptyString => [EmptyString]
  | String c s' =>
      if Ascii.eqb c sep then EmptyString :: split sep s'
      else match split sep s' with
           | [] => [String c EmptyString]
           | hd :: tl => String c hd :: tl
           end
  end.

(** [sep.join(l)] *)
Fixpoint join (sep : string) (l : list string) : string :=
  match l with
  | [] => EmptyString
  | x :: tl =>
      match tl with
      | [] => x
      | _ :: _ => x +:+ sep +:+ join sep tl
      end
  end.

Definition is_lower (c : ascii) : bool :=
  (97 <=? nat_of_ascii c) && (nat_of_ascii c <=? 122).

Definition upper_ascii (c : ascii) : ascii :=
  if is_lower c then ascii_of_nat (nat_of_ascii c - 32) else c.

(** A byte below 128 is an ASCII character; the bytes of any other
    character are all 128 or more. *)
Definition is_ascii_char (c : ascii) : bool := nat_of_ascii c <? 128.

(** [pat in s] on strings: [pat] occurs in [s] as a contiguous substring. *)
Fixpoint contains (pat s : string) : bool :=
  String.prefix pat s ||
  match s with
  | EmptyString => false
  | String _ s' => contains pat s'
  end.

(** [x in t] for a tuple [t] of strings. *)
Definition str_in (x : string) (t : list string) : bool :=
  existsb (String.eqb x) t.

(** ** Pure parts of [tf.py] *)

(** Line 26: [".".join(input_file.split('.')[:-1]) + '.MP4'] *)
Definition output_file_of (input_file : string) : string :=
  join "." (removelast (split dot input_file)) +:+ ".MP4".

(** Lines 68-69 *)
Definition allowed_extensions : list string :=
  ["MKV"; "AVI"; "MPG"; "WMV"; "MOV"; "M4V"; "3GP"; "MPEG"; "MPE"; "OGM";
   "FLV"; "DIVX"; "VOB"; "QT"].

(** ** Vocabulary of the specification *)

(** A string without ".". *)
Fixpoint dot_free (s : string) : bool :=
  match s with
  | EmptyString => true
  | String c s' => negb (Ascii.eqb c dot) && dot_free s'
  end.

(** [ext] is what follows the last "." of [name]; a name without "." is
    its own final segment, as [split] has it. *)
Definition final_segment (name ext : string) : Prop :=
  dot_free ext = true /\ (name = ext \/ exists pre, name = pre +:+ "." +:+ ext).

(** A string of ASCII characters only. *)
Fixpoint is_ascii (s : string) : bool :=
  match s with
  | EmptyString => true
  | String c s' => is_ascii_char c && is_ascii s'
  end.

(** The letters a-z made capital, every other byte kept. *)
Fixpoint upper_az (s : string) : string :=
  match s with
  | EmptyString => EmptyString
  | String c s' => String (upper_ascii c) (upper_az s')
  end.

(** Two characters that are equal up to the case of a letter a-z. *)
Definition same_letter_nocase (a b : ascii) : bool :=
  Ascii.eqb a b
  || (is_lower a && (nat_of_ascii b =? nat_of_ascii a - 32))
  || (is_lower b && (nat_of_ascii a =? nat_of_ascii b - 32)).

(** Case-insensitive equality of strings, character by character. *)
Fixpoint eq_nocase (s t : string) : bool :=
  match s, t with
  | EmptyString, EmptyString => true
  | String a s', String b t' => same_letter_nocase a b && eq_nocase s' t'
  | _, _ => false
  end.

(** No letter a-z occurs. *)
Fixpoint no_lower (s : string) : bool :=
  match s with
  | EmptyString => true
  | String c s' => negb (is_lower c) && no_lower s'
  end.

(** [pat] occurs in [s]. *)
Definition substring_of (pat s : string) : Prop :=
  exists pre post, s = pre +:+ pat +:+ post.

(** The character [c] occurs in [s]. *)
Fixpoint has_char (c : ascii) (s : string) : bool :=
  match s with
  | EmptyString => false
  | String a s' => Ascii.eqb a c || has_char c s'
  end.

(** ** The outside world *)

(** The severities of the [logging] calls. *)
Inductive level := DEBUG | INFO | WARNING | ERROR.

(** Python exceptions that the modelled code can let escape. *)
Inductive exn := KeyError | IndexError | OSError | ExifToolError.

Inductive result (A : Type) := Ok (a : A) | Raise (e : exn).
Arguments Ok {A} a.
Arguments Raise {A} e.

(** A path names a regular file (with some content) or a directory. *)
Inductive node (content : Type) := File (c : content) | Dir.
Arguments File {content} c.
Arguments Dir {content}.

(** Calls that leave the process, in the order they are made. *)
Inductive event (tagval : Type) :=
| Log (lvl : level) (msg : string)
| GetMetadata (path : string)
| Remove (path : string)
| Shell (cmd : string)
| SetTags (path : string) (tags : gmap string tagval).
Arguments Log {tagval} lvl msg.
Arguments GetMetadata {tagval} path.
Arguments Remove {tagval} path.
Arguments Shell {tagval} cmd.
Arguments SetTags {tagval} path tags.

(** Events that only write to the log, and events that change or create
    files. *)
Definition is_log {tagval} (e : event tagval) : bool :=
  match e with Log _ _ => true | _ => false end.

Definition invokes_tool {tagval} (e : event tagval) : bool :=
  match e with Shell _ | SetTags _ _ => true | _ => false end.

Definition destructive {tagval} (e : event tagval) : bool :=
  match e with Remove _ | Shell _ | SetTags _ _ => true | _ => false end.

(** The double quote character, and a path between double quotes as the
    f-strings of the source print it. *)
Definition dq : string := String "034"%char EmptyString.
Definition quoted (s : string) : string := dq +:+ s +:+ dq.

(** [str(b)] for a bool and [str(o)] for an optional string. *)
Definition str_bool (b : bool) : string := if b then "True" else "False".
Definition str_opt (o : option string) : string :=
  match o with Some s => s | None => "None" end.

(** Lines 9-17: the dictionary literal and its lookup ([KeyError] when
    the key is absent). *)
Definition log_level_map : list (string * string) :=
  [("DEBUG", "32"); ("INFO", "24"); ("WARNING", "24"); ("ERROR", "16")].

Fixpoint dict_get (d : list (string * string)) (k : string) : result string :=
  match d with
  | [] => Raise KeyError
  | (k', v) :: d' => if String.eqb k k' then Ok v else dict_get d' k
  end.

Definition ffmpeg_log_level (log_level : string) : result string :=
  dict_get log_level_map log_level.

(** The [choices] of the [--log-level] option (line 138). *)
Definition cli_log_levels : list string := ["DEBUG"; "INFO"; "WARNING"; "ERROR"].

(** [posixpath.join] for two components. *)
Fixpoint ends_with (c : ascii) (s : string) : bool :=
  match s with
  | EmptyString => false
  | String a EmptyString => Ascii.eqb a c
  | String _ s' => ends_with c s'
  end.

Definition starts_with (c : ascii) (s : string) : bool :=
  match s with
  | String a _ => Ascii.eqb a c
  | EmptyString => false
  end.

Definition os_path_join (a b : string) : string :=
  if starts_with "/" b then b
  else if String.eqb a EmptyString || ends_with "/" a then a +:+ b
  else a +:+ "/" +:+ b.

(** ** A small world to run the code in

    Two videos next to each other, one of them already converted, inside
    a directory; an [exiftool] that knows three fields of every file; a
    transcoder that writes "a.MP4". *)

Definition demo_tags : gmap string string :=
  <["CreateDate" := "2019:07:01 10:00:00"]>
    (<["ModifyDate" := "2019:07:02 11:30:00"]> (<["Model" := "DSC-W55"]> ∅)).

Definition demo_fs : gmap string (node unit) :=
  <["a.MOV" := File tt]> (<["a.MP4" := File tt]> (<["media" := Dir]> ∅)).

Definition demo_get_metadata (s : gmap string (node unit)) (p : string) :
    option (list (gmap string string)) :=
  match s !! p with
  | Some (File _) => Some [demo_tags]
  | _ => None
  end.

Definition demo_set_tags (p : string) (t : gmap string string)
    (s : gmap string (node unit)) : option (gmap string (node unit)) :=
  match s !! p with
  | Some (File _) => Some s
  | _ => None
  end.

Definition demo_shell_call (cmd : string) (s : gmap string (node unit)) :
    gmap string (node unit) :=
  <["a.MP4" := File tt]> s.

(** A few lines of the Unicode upper-case table, on UTF-8 bytes: the
    dotless i (U+0131, bytes 196 177) becomes "I", the ligature fl
    (U+FB02, bytes 239 172 130) becomes "FL"; other runs are kept. *)
Definition demo_unicode_upper (run : string) : string :=
  if String.eqb run (String "196" (String "177" EmptyString)) then "I"
  else if String.eqb run (String "239" (String "172" (String "130" EmptyString))) then "FL"
  else run.

Definition demo_walk (s : gmap string (node unit)) (root : string) :
    list (string * list string * list string) :=
  [(root, [], ["a.MOV"; "a.MP4"])].

Definition demo_str_list (l : list string) : string := join ", " l.

Definition demo_str_tags (t : gmap string string) : string :=
  join ", " (map fst (map_to_list t)).

Section Lifecycle.

(** [str.upper] on characters outside ASCII is the Unicode table's
    business: [unicode_upper] gives, for a run of non-ASCII bytes, the
    bytes of its upper-cased form (which may be ASCII, as for the dotless
    i, or longer, as for a ligature). *)
Variable unicode_upper : string -> string.

Definition upper_run (run : string) : string :=
  match run with
  | EmptyString => EmptyString
  | String _ _ => unicode_upper run
  end.

(** [upper_from run s]: [s] upper-cased, with the non-ASCII bytes [run]
    pending in front of it. *)
Fixpoint upper_from (run s : string) : string :=
  match s with
  | EmptyString => upper_run run
  | String c s' =>
      if is_ascii_char c then
        upper_run run +:+ String (upper_ascii c) (upper_from EmptyString s')
      else upper_from (run +:+ String c EmptyString) s'
  end.

(** [s.upper()] *)
Definition upper (s : string) : string := upper_from EmptyString s.

(** Line 70: [input_file.split('.')[-1].upper() in allowed_extensions] *)
Definition supported_input_format (input_file : string) : bool :=
  str_in (upper (List.last (split dot input_file) EmptyString)) allowed_extensions.

(** What a regular file holds and what a metadata field holds are left
    open: the code never inspects either. *)
Variable content : Type.
Variable tagval : Type.

Abbreviation fs := (gmap string (node content)).
Abbreviation tags := (gmap string tagval).
Abbreviation ev := (event tagval).

(** The programs and library calls the tool relies on.  [None] stands
    for a raised exception. *)
Variable exif_get_metadata : fs -> string -> option (list tags).
Variable exif_set_tags : string -> tags -> fs -> option fs.
Variable shell_call : string -> fs -> fs.
Variable os_walk : fs -> string -> list (string * list string * list string).
(** [str] of a list of strings and of a dictionary, as f-strings print them. *)
Variable str_list : list string -> string.
Variable str_tags : tags -> string.

(** ** The effect monad: file system state, emitted events, exceptions.
    An exception keeps the effects that came before it. *)
Definition M (A : Type) : Type := fs -> result A * fs * list ev.

Definition ret {A} (a : A) : M A := fun s => (Ok a, s, []).

Definition bind {A B} (m : M A) (f : A -> M B) : M B :=
  fun s =>
    match m s with
    | (Ok a, s', e1) =>
        match f a s' with
        | (r, s'', e2) => (r, s'', e1 ++ e2)
        end
    | (Raise x, s', e1) => (Raise x, s', e1)
    end.

Definition raise {A} (x : exn) : M A := fun s => (Raise x, s, []).
Definition emit (e : ev) : M unit := fun s => (Ok tt, s, [e]).
Definition lift {A} (r : result A) : M A := fun s => (r, s, []).

Declare Scope tf_scope.
Notation "x <- m ; k" := (bind m (fun x => k))
  (at level 20, m at level 100, k at level 200, only parsing) : tf_scope.
Notation "m ;; k" := (bind m (fun _ => k))
  (at level 100, k at level 200, only parsing, right associativity) : tf_scope.
Local Open Scope tf_scope.

(** Projections of a run. *)
Definition res_of {A} (r : result A * fs * list ev) : result A := r.1.1.
Definition fs_of {A} (r : result A * fs * list ev) : fs := r.1.2.
Definition events_of {A} (r : result A * fs * list ev) : list ev := r.2.

(** A run with more events in front. *)
Definition prepend {A} (e : list ev) (r : result A * fs * list ev) : result A * fs * list ev :=
  (res_of r, fs_of r, e ++ events_of r).

(** *** [os] and [logging] *)

Definition os_path_exists (p : string) : M bool :=
  fun s => (Ok (match s !! p with Some _ => true | None => false end), s, []).

Definition os_path_isdir (p : string) : M bool :=
  fun s => (Ok (match s !! p with Some Dir => true | _ => false end), s, []).

(** [os.remove] deletes a regular file and raises on anything else. *)
Definition os_remove (p : string) : M unit :=
  fun s =>
    match s !! p with
    | Some (File _) => (Ok tt, delete p s, [Remove p])
    | _ => (Raise OSError, s, [Remove p])
    end.

Definition logging_debug (msg : string) : M unit := emit (Log DEBUG msg).
Definition logging_info (msg : string) : M unit := emit (Log INFO msg).
Definition logging_warning (msg : string) : M unit := emit (Log WARNING msg).
Definition logging_error (msg : string) : M unit := emit (Log ERROR msg).

(** *** External tools *)

(** [et.get_metadata(path)[0]] *)
Definition get_metadata0 (p : string) : M tags :=
  fun s =>
    match exif_get_metadata s p with
    | Some (m :: _) => (Ok m, s, [GetMetadata p])
    | Some [] => (Raise IndexError, s, [GetMetadata p])
    | None => (Raise ExifToolError, s, [GetMetadata p])
    end.

(** [ExifToolHelper().set_tags(files=p, tags=t)] *)
Definition set_tags (p : string) (t : tags) : M unit :=
  fun s =>
    match exif_set_tags p t s with
    | Some s' => (Ok tt, s', [SetTags p t])
    | None => (Raise ExifToolError, s, [SetTags p t])
    end.

(** [subprocess.call(cmd, shell=True)]; the exit status is dropped. *)
Definition subprocess_call (cmd : string) : M unit :=
  fun s => (Ok tt, shell_call cmd s, [Shell cmd]).

(** [os.walk(root)], read off the current file system. *)
Definition os_walk_list (root : string) : M (list (string * list string * list string)) :=
  fun s => (Ok (os_walk s root), s, []).

(** ** [transform_video] *)

(** Line 40: [{key: metadata[key] for key in metadata if 'Date' in key}] *)
Definition datetags_of (metadata : tags) : tags :=
  filter (fun kv => contains "Date" kv.1 = true) metadata.

(** Line 27 *)
Definition ffmpeg_command_of (lvl input_file output_file : string) : string :=
  "ffmpeg -loglevel " +:+ lvl +:+ " -i " +:+ quoted input_file +:+
  " -b:a 32k " +:+ quoted output_file.

(** Lines 53-64: the transcode step reached when the output is absent or
    was removed under [force]. *)
Definition transcode_now (ffmpeg_command output_file : string)
    (dry_run : bool) (datetags : tags) : M unit :=
  if negb dry_run then
    subprocess_call ffmpeg_command ;;
    set_tags output_file datetags ;;
    let exiftool_renamed_file := output_file +:+ "_original" in
    logging_debug ("Removing exiftool renamed file " +:+ quoted exiftool_renamed_file) ;;
    b <- os_path_exists exiftool_renamed_file;
    (if b then os_remove exiftool_renamed_file else ret tt) ;;
    logging_info (quoted output_file +:+ " created")
  else ret tt.

(** Lines 20-64.  A Python [return] ends the branch it stands in. *)
Definition transform_video (input_file : string) (dry_run force erase : bool)
    (log_level : string) : M unit :=
  let output_file := output_file_of input_file in
  lvl <- lift (ffmpeg_log_level log_level);
  let ffmpeg_command := ffmpeg_command_of lvl input_file output_file in
  (if negb dry_run then
     logging_info ("Transforming " +:+ quoted input_file +:+ " to " +:+ quoted output_file)
   else
     logging_info ("Simulating transformation of " +:+ quoted input_file +:+ " to " +:+
                   quoted output_file)) ;;
  ex <- os_path_exists input_file;
  if negb ex then
    logging_error (quoted input_file +:+ " does not exist")
  else
    metadata <- get_metadata0 input_file;
    let datetags := datetags_of metadata in
    logging_debug ("Detected date tags in " +:+ quoted input_file +:+ ": " +:+
                   str_tags datetags) ;;
    oex <- os_path_exists output_file;
    if oex then
      if force then
        logging_info (quoted output_file +:+ " already exists. deleting before transformation.") ;;
        os_remove output_file ;;
        transcode_now ffmpeg_command output_file dry_run datetags
      else
        if erase then
          logging_warning (quoted input_file +:+ " already transformed. Deleting.") ;;
          os_remove input_file
        else
          logging_warning (quoted output_file +:+ " already exists. Skipping transformation.")
    else
      transcode_now ffmpeg_command output_file dry_run datetags.

(** ** [dispatch_transformation] (lines 73-76) *)
Fixpoint dispatch_transformation (input_file_list : list string)
    (dryrun force erase : bool) (log_level : string) : M unit :=
  match input_file_list with
  | [] => ret tt
  | file :: rest =>
      (if supported_input_format file then
         transform_video file dryrun force erase log_level
       else ret tt) ;;
      dispatch_transformation rest dryrun force erase log_level
  end.

(** ** [main] (lines 79-103) *)

(** [l[0]] *)
Definition list_get0 (l : list string) : M string :=
  match l with
  | x :: _ => ret x
  | [] => raise IndexError
  end.

(** Lines 97-100: every file name of every directory of the walk, joined
    to its directory. *)
Definition collect_files (walk : list (string * list string * list string)) : list string :=
  flat_map (fun '(root, _, files) => map (os_path_join root) files) walk.

Definition main (output_format : option string) (dryrun force : bool)
    (log_level : string) (recursive erase : bool) (input_files : list string) : M unit :=
  logging_debug ("Input file: " +:+ quoted (str_list input_files)) ;;
  logging_debug ("Output format: " +:+ str_opt output_format) ;;
  logging_debug ("Dry run: " +:+ str_bool dryrun) ;;
  logging_debug ("Log level: " +:+ log_level) ;;
  logging_debug ("Force transformation: " +:+ str_bool force) ;;
  logging_debug ("Recursive: " +:+ str_bool recursive) ;;
  if recursive then
    if negb (length input_files =? 1) then
      logging_error ("Only one path supported. Supplied " +:+ quoted (str_list input_files))
    else
      root_path <- list_get0 input_files;
      d <- os_path_isdir root_path;
      if negb d then
        logging_error ("Path supplied is not a directory: " +:+ quoted root_path)
      else
        logging_info ("Transforming files recursively from root directory: " +:+
                      quoted root_path) ;;
        walk <- os_walk_list root_path;
        let recursive_file_list := collect_files walk in
        dispatch_transformation recursive_file_list dryrun force erase log_level
  else
    dispatch_transformation input_files dryrun force erase log_level.

(** ** Log entries of [transform_video], named for the statements below *)

(** Lines 29-32 *)
Definition announce (input_file : string) (dry_run : bool) : ev :=
  Log INFO
    ((if dry_run then "Simulating transformation of " else "Transforming ") +:+
     quoted input_file +:+ " to " +:+ quoted (output_file_of input_file)).

(** Line 41 *)
Definition detected (input_file : string) (datetags : tags) : ev :=
  Log DEBUG ("Detected date tags in " +:+ quoted input_file +:+ ": " +:+ str_tags datetags).

(** The two messages a missing input leaves in the log (lines 30-34). *)
Definition missing_report (input_file : string) (dry_run : bool) : list ev :=
  [announce input_file dry_run; Log ERROR (quoted input_file +:+ " does not exist")].

(** Lines 80-85 *)
Definition main_debug_log (output_format : option string) (dryrun force : bool)
    (log_level : string) (recursive : bool) (input_files : list string) : list ev :=
  [Log DEBUG ("Input file: " +:+ quoted (str_list input_files));
   Log DEBUG ("Output format: " +:+ str_opt output_format);
   Log DEBUG ("Dry run: " +:+ str_bool dryrun);
   Log DEBUG ("Log level: " +:+ log_level);
   Log DEBUG ("Force transformation: " +:+ str_bool force);
   Log DEBUG ("Recursive: " +:+ str_bool recursive)].

(** ** Strings: append, [split] and [join] *)

Lemma sapp_nil_r (s : string) : s +:+ EmptyString = s.
Proof. induction s as [|c s IH]; cbn; [reflexivity | now rewrite IH]. Qed.

Lemma sapp_assoc (a b c : string) : (a +:+ b) +:+ c = a +:+ (b +:+ c).
Proof. induction a as [|x a IH]; cbn; [reflexivity | now rewrite IH]. Qed.

Lemma sapp_cons (c : ascii) (a b : string) : String c a +:+ b = String c (a +:+ b).
Proof. reflexivity. Qed.

Lemma split_not_nil (sep : ascii) (s : string) : split sep s <> [].
Proof.
  destruct s as [|c s]; cbn; [discriminate |].
  destruct (Ascii.eqb c sep); [discriminate |].
  destruct (split sep s); discriminate.
Qed.

(** Splitting on either side of a separator splits the whole. *)
Lemma split_app (sep : ascii) (p q : string) :
  split sep (p +:+ String sep q) = split sep p ++ split sep q.
Proof.
  induction p as [|c p IH]; cbn.
  - now rewrite Ascii.eqb_refl.
  - destruct (Ascii.eqb c sep); rewrite IH; [reflexivity |].
    pose proof (split_not_nil sep p) as Hne.
    destruct (split sep p); [contradiction | reflexivity].
Qed.

Lemma split_dot_free (s : string) : dot_free s = true -> split dot s = [s].
Proof.
  induction s as [|c s IH]; cbn; [reflexivity |].
  intros H. apply andb_prop in H as [Hc Hs].
  apply negb_true_iff in Hc. rewrite Hc, (IH Hs). reflexivity.
Qed.

Lemma split_segments_dot_free (s : string) :
  Forall (fun x => dot_free x = true) (split dot s).
Proof.
  induction s as [|c s IH]; cbn.
  - repeat constructor.
  - destruct (Ascii.eqb c dot) eqn:E.
    + constructor; [reflexivity | exact IH].
    + pose proof (split_not_nil dot s) as Hne.
      destruct (split dot s) as [|hd tl]; [contradiction |].
      inversion IH; subst. constructor; [| assumption].
      cbn. now rewrite E.
Qed.

(** [sep.join(s.split(sep)) == s] *)
Lemma join_split (sep : ascii) (s : string) :
  join (String sep EmptyString) (split sep s) = s.
Proof.
  induction s as [|c s IH]; cbn; [reflexivity |].
  pose proof (split_not_nil sep s) as Hne.
  destruct (Ascii.eqb c sep) eqn:E.
  - apply Ascii.eqb_eq in E. subst c.
    destruct (split sep s) as [|hd tl]; [contradiction |].
    change (join (String sep EmptyString) (EmptyString :: hd :: tl))
      with (EmptyString +:+ String sep EmptyString +:+ join (String sep EmptyString) (hd :: tl)).
    now rewrite IH.
  - destruct (split sep s) as [|hd tl]; [contradiction |].
    destruct tl as [|hd' tl].
    + cbn in *. now rewrite IH.
    + change (join (String sep EmptyString) (String c hd :: hd' :: tl))
        with (String c hd +:+ String sep EmptyString +:+ join (String sep EmptyString) (hd' :: tl)).
      change (join (String sep EmptyString) (hd :: hd' :: tl))
        with (hd +:+ String sep EmptyString +:+ join (String sep EmptyString) (hd' :: tl)) in IH.
      now rewrite sapp_cons, IH.
Qed.

Lemma join_snoc (sep : string) (l : list string) (x : string) :
  l <> [] -> join sep (l ++ [x]) = join sep l +:+ sep +:+ x.
Proof.
  induction l as [|a l IH]; [contradiction |]. intros _.
  destruct l as [|b l].
  - reflexivity.
  - change (join sep ((a :: b :: l) ++ [x]))
      with (a +:+ sep +:+ join sep ((b :: l) ++ [x])).
    rewrite IH by discriminate.
    change (join sep (a :: b :: l)) with (a +:+ sep +:+ join sep (b :: l)).
    now rewrite !sapp_assoc.
Qed.

(** The decomposition behind lines 26 and 70: the segments before the
    last one, and the last one. *)
Lemma split_final (pre ext : string) :
  dot_free ext = true ->
  split dot (pre +:+ "." +:+ ext) = split dot pre ++ [ext].
Proof.
  intros H. change (pre +:+ "." +:+ ext) with (pre +:+ String dot ext).
  now rewrite split_app, (split_dot_free ext H).
Qed.

Lemma last_segment (name ext : string) :
  final_segment name ext -> List.last (split dot name) EmptyString = ext.
Proof.
  intros [Hfree [-> | [pre ->]]].
  - now rewrite split_dot_free.
  - rewrite split_final by assumption. apply last_last.
Qed.

(** Every name has a final segment. *)
Lemma final_segment_total (name : string) : exists ext, final_segment name ext.
Proof.
  pose proof (split_not_nil dot name) as Hne.
  pose proof (split_segments_dot_free name) as Hall.
  pose proof (join_split dot name) as Hjoin.
  destruct (exists_last Hne) as [l [x Hx]]. rewrite Hx in Hall, Hjoin.
  exists x. split.
  - apply Forall_app in Hall as [_ Hall]. now inversion Hall.
  - destruct l as [|a l].
    + left. now rewrite <- Hjoin.
    + right. exists (join "." (a :: l)).
      rewrite <- Hjoin. rewrite join_snoc by discriminate. reflexivity.
Qed.

(** ** Case folding and membership *)

Lemma str_in_In (x : string) (l : list string) : str_in x l = true <-> In x l.
Proof.
  unfold str_in. rewrite existsb_exists. split.
  - intros [y [Hy E]]. apply String.eqb_eq in E. now subst.
  - intros H. exists x. split; [assumption | apply String.eqb_refl].
Qed.

Lemma nat_of_ascii_inj (a b : ascii) : nat_of_ascii a = nat_of_ascii b -> a = b.
Proof.
  intros H. rewrite <- (ascii_nat_embedding a), <- (ascii_nat_embedding b).
  now rewrite H.
Qed.

(** Against a character that is not a letter a-z, upper-casing and
    comparing is comparing without regard to case. *)
Lemma upper_ascii_nocase (a b : ascii) :
  is_lower b = false -> (upper_ascii a = b <-> same_letter_nocase a b = true).
Proof.
  intros Hb. unfold upper_ascii, same_letter_nocase. rewrite Hb.
  rewrite andb_false_l, orb_false_r.
  destruct (is_lower a) eqn:Ha; cbn [andb].
  - split.
    + intros <-. apply orb_true_iff. right. apply Nat.eqb_eq.
      apply nat_ascii_embedding. pose proof (nat_ascii_bounded a). lia.
    + intros H. apply orb_true_iff in H as [H | H].
      * apply Ascii.eqb_eq in H. subst b. congruence.
      * apply Nat.eqb_eq in H. rewrite <- H. apply ascii_nat_embedding.
  - rewrite orb_false_r. symmetry. apply Ascii.eqb_eq.
Qed.

Lemma upper_eq_nocase (s e : string) :
  no_lower e = true -> (upper_az s = e <-> eq_nocase s e = true).
Proof.
  revert e. induction s as [|a s IH]; intros [|b e] He; cbn; try (split; congruence).
  cbn in He. apply andb_prop in He as [Hb He]. apply negb_true_iff in Hb.
  rewrite andb_true_iff, <- (IH e He), <- (upper_ascii_nocase a b Hb).
  split; [intros [= -> ->]; now split | intros [-> ->]; reflexivity].
Qed.

Lemma allowed_no_lower : Forall (fun e => no_lower e = true) allowed_extensions.
Proof. repeat constructor. Qed.

(** [str.upper] on an ASCII string is the a-z map; the table is not
    consulted. *)
Lemma upper_of_ascii (s : string) : is_ascii s = true -> upper s = upper_az s.
Proof.
  unfold upper. induction s as [|c s IH]; cbn; [reflexivity |].
  intros H. apply andb_prop in H as [Hc Hs]. rewrite Hc. cbn. now rewrite (IH Hs).
Qed.

Lemma allowed_ascii : Forall (fun e => is_ascii e = true) allowed_extensions.
Proof. repeat constructor. Qed.

(** The allow-list entries are their own upper-case form. *)
Lemma allowed_upper_fixed (e : string) : In e allowed_extensions -> upper e = e.
Proof.
  intros H. cbn in H.
  repeat (destruct H as [<- | H]; [reflexivity |]). contradiction.
Qed.

(** The filter in the words of the specification: equal to an entry once
    both are upper-cased. *)
Lemma supported_iff_upper (name ext : string) :
  final_segment name ext ->
  (supported_input_format name = true <->
   exists e, In e allowed_extensions /\ upper ext = upper e).
Proof.
  intros Hseg. unfold supported_input_format.
  rewrite (last_segment name ext Hseg), str_in_In. split.
  - intros Hin. exists (upper ext). split; [assumption |].
    now rewrite (allowed_upper_fixed _ Hin).
  - intros [e [Hin Heq]]. rewrite Heq. now rewrite (allowed_upper_fixed _ Hin).
Qed.

(** For an ASCII final segment that is comparing letter by letter without
    regard to case. *)
Lemma supported_iff_nocase (name ext : string) :
  final_segment name ext ->
  is_ascii ext = true ->
  (supported_input_format name = true <->
   exists e, In e allowed_extensions /\ eq_nocase ext e = true).
Proof.
  intros Hseg Hascii. unfold supported_input_format.
  rewrite (last_segment name ext Hseg), str_in_In, (upper_of_ascii ext Hascii).
  pose proof allowed_no_lower as Hall. rewrite Forall_forall in Hall.
  split.
  - intros Hin. exists (upper_az ext). split; [assumption |].
    apply upper_eq_nocase; [apply Hall; now apply list_elem_of_In | reflexivity].
  - intros [e [Hin Heq]].
    apply upper_eq_nocase in Heq; [now subst | apply Hall; now apply list_elem_of_In].
Qed.

(** ** Substrings *)

Lemma prefix_app (pat s : string) :
  String.prefix pat s = true <-> exists post, s = pat +:+ post.
Proof.
  revert pat. induction s as [|b s IH]; intros [|a pat]; cbn.
  - split; [exists EmptyString; reflexivity | reflexivity].
  - split; [discriminate | intros [post H]; discriminate].
  - split; [exists (String b s); reflexivity | reflexivity].
  - destruct (ascii_dec a b) as [-> | Hne].
    + rewrite IH. split; intros [post H]; exists post; congruence.
    + split; [discriminate | intros [post H]; congruence].
Qed.

Lemma contains_unfold (pat s : string) :
  contains pat s =
  String.prefix pat s ||
  match s with EmptyString => false | String _ s' => contains pat s' end.
Proof. destruct s; reflexivity. Qed.

(** [pat in s] is true exactly when [pat] occurs in [s]. *)
Lemma contains_substring (pat s : string) :
  contains pat s = true <-> substring_of pat s.
Proof.
  unfold substring_of. split.
  - induction s as [|c s IH]; rewrite contains_unfold, orb_true_iff.
    + intros [H | H]; [| discriminate].
      apply prefix_app in H as [post H]. exists EmptyString, post. exact H.
    + intros [H | H].
      * apply prefix_app in H as [post H]. exists EmptyString, post. exact H.
      * destruct (IH H) as [pre [post E]]. exists (String c pre), post.
        cbn. now rewrite E.
  - intros [pre [post E]]. revert s E.
    induction pre as [|c pre IH]; intros s E; rewrite contains_unfold, orb_true_iff.
    + left. apply prefix_app. exists post. exact E.
    + right. subst s. cbn. apply (IH _ eq_refl).
Qed.

(** ** The output name *)

Lemma output_file_of_final (pre ext : string) :
  dot_free ext = true ->
  output_file_of (pre +:+ "." +:+ ext) = pre +:+ ".MP4".
Proof.
  intros H. unfold output_file_of.
  rewrite split_final by assumption.
  rewrite removelast_last. change "."%string with (String dot EmptyString).
  now rewrite join_split.
Qed.

(** A name the filter accepts is never its own output name. *)
Lemma supported_output_differs (name : string) :
  supported_input_format name = true -> output_file_of name <> name.
Proof.
  intros Hsup Heq.
  assert (Hseg : final_segment name "MP4").
  { split; [reflexivity |]. right.
    exists (join "." (removelast (split dot name))). now rewrite <- Heq at 1. }
  unfold supported_input_format in Hsup.
  rewrite (last_segment _ _ Hseg) in Hsup. discriminate.
Qed.

(** ** Runs of the monad *)

Lemma bind_run {A B} (m : M A) (f : A -> M B) (s : fs) :
  bind m f s =
  match m s with
  | (Ok a, s', e1) => (res_of (f a s'), fs_of (f a s'), e1 ++ events_of (f a s'))
  | (Raise x, s', e1) => (Raise x, s', e1)
  end.
Proof.
  unfold bind. destruct (m s) as [[[a | x] s'] e1]; [| reflexivity].
  now destruct (f a s') as [[r s''] e2].
Qed.

(** One step of a sequence whose first computation returned. *)
Lemma bind_step {A B} (m : M A) (f : A -> M B) (s s' : fs) (a : A) (e1 : list ev) :
  m s = (Ok a, s', e1) -> bind m f s = prepend e1 (f a s').
Proof.
  intros H. unfold bind, prepend. rewrite H. now destruct (f a s') as [[r s''] e2].
Qed.

Lemma bind_stop {A B} (m : M A) (f : A -> M B) (s s' : fs) (x : exn) (e1 : list ev) :
  m s = (Raise x, s', e1) -> bind m f s = (Raise x, s', e1).
Proof. intros H. unfold bind. now rewrite H. Qed.

Lemma prepend_prepend {A} (e1 e2 : list ev) (r : result A * fs * list ev) :
  prepend e1 (prepend e2 r) = prepend (e1 ++ e2) r.
Proof. unfold prepend. cbn. now rewrite app_assoc. Qed.

Lemma prepend_value {A} (e1 e2 : list ev) (r : result A) (s : fs) :
  prepend e1 (r, s, e2) = (r, s, e1 ++ e2).
Proof. reflexivity. Qed.

Lemma run_eta {A} (r : result A * fs * list ev) : r = (res_of r, fs_of r, events_of r).
Proof. now destruct r as [[? ?] ?]. Qed.

(** What came out of the first computation stays at the front. *)
Lemma bind_events {A B} (m : M A) (f : A -> M B) (s : fs) :
  exists tail, events_of (bind m f s) = events_of (m s) ++ tail.
Proof.
  rewrite bind_run. destruct (m s) as [[[a | x] s'] e1]; cbn.
  - now eexists.
  - exists []. now rewrite app_nil_r.
Qed.

Lemma bind_assoc_run {A B C} (m : M A) (f : A -> M B) (g : B -> M C) (s : fs) :
  bind (bind m f) g s = bind m (fun a => bind (f a) g) s.
Proof.
  unfold bind. destruct (m s) as [[[a | x] s'] e1]; [| reflexivity].
  destruct (f a s') as [[[b | y] s''] e2]; [| reflexivity].
  destruct (g b s'') as [[r s3] e3]. now rewrite app_assoc.
Qed.

Lemma bind_ext_run {A B} (m : M A) (f g : A -> M B) (s : fs) :
  (forall a s', f a s' = g a s') -> bind m f s = bind m g s.
Proof.
  intros H. unfold bind. destruct (m s) as [[[a | x] s'] e1]; [| reflexivity].
  now rewrite H.
Qed.

Lemma cli_levels_mapped (log_level : string) :
  In log_level cli_log_levels -> exists v, ffmpeg_log_level log_level = Ok v.
Proof.
  intros [<- | [<- | [<- | [<- | []]]]]; eexists; reflexivity.
Qed.

(** ** The dispatch loop *)

Section Dispatch.

Variables (dryrun force erase : bool) (log_level : string).

Lemma dispatch_cons (file : string) (rest : list string) (s : fs) :
  dispatch_transformation (file :: rest) dryrun force erase log_level s =
  bind (if supported_input_format file
        then transform_video file dryrun force erase log_level else ret tt)
       (fun _ => dispatch_transformation rest dryrun force erase log_level) s.
Proof. reflexivity. Qed.

(** Running a list is running its front and then its back. *)
Lemma dispatch_app (l1 l2 : list string) (s : fs) :
  dispatch_transformation (l1 ++ l2) dryrun force erase log_level s =
  bind (dispatch_transformation l1 dryrun force erase log_level)
       (fun _ => dispatch_transformation l2 dryrun force erase log_level) s.
Proof.
  revert s. induction l1 as [|f l1 IH]; intros s.
  - cbn. unfold bind, ret. now destruct (dispatch_transformation l2 _ _ _ _ s) as [[? ?] ?].
  - cbn [app dispatch_transformation]. rewrite bind_assoc_run.
    apply bind_ext_run. intros _ s'. apply IH.
Qed.

(** A file the filter rejects leaves no trace at all. *)
Lemma dispatch_unsupported (file : string) (rest : list string) (s : fs) :
  supported_input_format file = false ->
  dispatch_transformation (file :: rest) dryrun force erase log_level s =
  dispatch_transformation rest dryrun force erase log_level s.
Proof.
  intros H. rewrite dispatch_cons, H. unfold bind, ret.
  now destruct (dispatch_transformation rest _ _ _ _ s) as [[? ?] ?].
Qed.

End Dispatch.

(** ** Steps of [transform_video] *)

Ltac unfold_ops :=
  unfold lift, ret, emit, raise, logging_debug, logging_info, logging_warning,
    logging_error, os_path_exists, os_path_isdir, os_remove, get_metadata0,
    set_tags, subprocess_call, os_walk_list.

(** Lines 33-35: a missing input is reported and nothing else happens. *)
Lemma transform_video_missing (input_file : string) (dry_run force erase : bool)
    (log_level v : string) (s : fs) :
  ffmpeg_log_level log_level = Ok v ->
  s !! input_file = None ->
  transform_video input_file dry_run force erase log_level s =
  (Ok tt, s, missing_report input_file dry_run).
Proof.
  intros Hv Hin. unfold transform_video, bind. unfold_ops.
  rewrite Hv. destruct dry_run; cbn; rewrite Hin; reflexivity.
Qed.

(** Take one step of a sequence, closing the run of its head with [tac]. *)
Ltac step tac :=
  erewrite bind_step; [| unfold_ops; tac; reflexivity]; rewrite ?prepend_prepend.

(** Lines 26-41 on an existing input whose metadata can be read: what is
    left to run is the decision on the output. *)
Lemma transform_video_read (input_file : string) (dry_run force erase : bool)
    (log_level v : string) (s : fs) (n : node content) (m : tags) (ms : list tags) :
  ffmpeg_log_level log_level = Ok v ->
  s !! input_file = Some n ->
  exif_get_metadata s input_file = Some (m :: ms) ->
  let out := output_file_of input_file in
  let go := transcode_now (ffmpeg_command_of v input_file out) out dry_run (datetags_of m) in
  transform_video input_file dry_run force erase log_level s =
  prepend [announce input_file dry_run; GetMetadata input_file;
           detected input_file (datetags_of m)]
    (bind (os_path_exists out)
       (fun oex : bool =>
          if oex then
            if force then
              bind (logging_info (quoted out +:+ " already exists. deleting before transformation."))
                (fun _ => bind (os_remove out) (fun _ => go))
            else if erase then
              bind (logging_warning (quoted input_file +:+ " already transformed. Deleting."))
                (fun _ => os_remove input_file)
            else logging_warning (quoted out +:+ " already exists. Skipping transformation.")
          else go) s).
Proof.
  intros Hv Hin Hmeta out go. subst out go. unfold transform_video.
  step ltac:(rewrite Hv).
  destruct dry_run; cbn [negb].
  all: step idtac; step ltac:(rewrite Hin); cbn [negb];
       step ltac:(rewrite Hmeta); step idtac; reflexivity.
Qed.

(** Lines 37-52 with the output present, [force] unset and [erase] set:
    the input is removed and the function returns. *)
Lemma transform_video_erase (input_file : string) (dry_run : bool)
    (log_level v : string) (s : fs) (c : content) (out : node content)
    (m : tags) (ms : list tags) :
  ffmpeg_log_level log_level = Ok v ->
  s !! input_file = Some (File c) ->
  exif_get_metadata s input_file = Some (m :: ms) ->
  s !! output_file_of input_file = Some out ->
  transform_video input_file dry_run false true log_level s =
  (Ok tt, delete input_file s,
   [announce input_file dry_run; GetMetadata input_file;
    detected input_file (datetags_of m);
    Log WARNING (quoted input_file +:+ " already transformed. Deleting.");
    Remove input_file]).
Proof.
  intros Hv Hin Hmeta Hout.
  rewrite (transform_video_read _ _ _ _ _ _ _ _ _ _ Hv Hin Hmeta). cbv zeta.
  step ltac:(rewrite Hout). step idtac.
  unfold os_remove. rewrite Hin. reflexivity.
Qed.

(** Lines 37-45 and 53 with the output present and [force] set: the output
    is removed and the transcode step runs on what is left, whatever
    [erase] says. *)
Lemma transform_video_force (input_file : string) (dry_run erase : bool)
    (log_level v : string) (s : fs) (n : node content) (c : content)
    (m : tags) (ms : list tags) :
  ffmpeg_log_level log_level = Ok v ->
  s !! input_file = Some n ->
  exif_get_metadata s input_file = Some (m :: ms) ->
  s !! output_file_of input_file = Some (File c) ->
  let out := output_file_of input_file in
  transform_video input_file dry_run true erase log_level s =
  prepend
    [announce input_file dry_run; GetMetadata input_file;
     detected input_file (datetags_of m);
     Log INFO (quoted out +:+ " already exists. deleting before transformation.");
     Remove out]
    (transcode_now (ffmpeg_command_of v input_file out) out dry_run
       (datetags_of m) (delete out s)).
Proof.
  intros Hv Hin Hmeta Hout out. subst out.
  rewrite (transform_video_read _ _ _ _ _ _ _ _ _ _ Hv Hin Hmeta). cbv zeta.
  step ltac:(rewrite Hout). step idtac. step ltac:(rewrite Hout).
  reflexivity.
Qed.

(** The transcode step of a real run starts with the transcoder and then
    writes the date tags onto the output. *)
Lemma transcode_now_starts (cmd out : string) (t : tags) (s : fs) :
  exists rest,
    events_of (transcode_now cmd out false t s) = Shell cmd :: SetTags out t :: rest.
Proof.
  unfold transcode_now. cbn [negb]. step idtac.
  match goal with
  | |- context [bind ?m ?f ?s1] => destruct (bind_events m f s1) as [tail Ht]
  end.
  exists tail. unfold prepend, events_of at 1. cbn [snd]. rewrite Ht.
  unfold set_tags. now destruct (exif_set_tags out t (shell_call cmd s)).
Qed.

(** A dry run of the transcode step does nothing. *)
Lemma transcode_now_dry (cmd out : string) (t : tags) (s : fs) :
  transcode_now cmd out true t s = (Ok tt, s, []).
Proof. reflexivity. Qed.

(** The metadata of an existing input is read right after the opening
    log line. *)
Lemma transform_video_reads_first (input_file : string) (dry_run force erase : bool)
    (log_level v : string) (s : fs) (n : node content) :
  ffmpeg_log_level log_level = Ok v ->
  s !! input_file = Some n ->
  exists post,
    events_of (transform_video input_file dry_run force erase log_level s) =
    announce input_file dry_run :: GetMetadata input_file :: post.
Proof.
  intros Hv Hin.
  destruct (exif_get_metadata s input_file) as [[|m ms] |] eqn:Hmeta.
  - exists []. unfold transform_video. step ltac:(rewrite Hv).
    destruct dry_run; cbn [negb].
    all: step idtac; step ltac:(rewrite Hin); cbn [negb];
         erewrite bind_stop; [reflexivity | unfold_ops; rewrite Hmeta; reflexivity].
  - rewrite (transform_video_read _ _ _ _ _ _ _ _ _ _ Hv Hin Hmeta). cbv zeta.
    unfold prepend, events_of at 1. cbn [snd app]. eexists. reflexivity.
  - exists []. unfold transform_video. step ltac:(rewrite Hv).
    destruct dry_run; cbn [negb].
    all: step idtac; step ltac:(rewrite Hin); cbn [negb];
         erewrite bind_stop; [reflexivity | unfold_ops; rewrite Hmeta; reflexivity].
Qed.

Ltac close_head :=
  unfold_ops;
  repeat match goal with H : ?l = _ |- context [?l] => rewrite H end;
  reflexivity.

(** Run a sequence as far as the hypotheses decide it. *)
Ltac run :=
  repeat (first [ erewrite bind_step by close_head
                | erewrite bind_stop by close_head ];
          rewrite ?prepend_prepend; cbn [negb]).

(** ** [main] *)

Section Main.

Variables (output_format : option string) (dryrun force erase : bool) (log_level : string).

Lemma main_recursive_bad_count (input_files : list string) (s : fs) :
  length input_files <> 1 ->
  main output_format dryrun force log_level true erase input_files s =
  (Ok tt, s,
   main_debug_log output_format dryrun force log_level true input_files ++
   [Log ERROR ("Only one path supported. Supplied " +:+ quoted (str_list input_files))]).
Proof.
  intros Hlen. unfold main. run.
  apply Nat.eqb_neq in Hlen. rewrite Hlen. reflexivity.
Qed.

Lemma main_recursive_not_dir (root_path : string) (s : fs) :
  s !! root_path <> Some Dir ->
  main output_format dryrun force log_level true erase [root_path] s =
  (Ok tt, s,
   main_debug_log output_format dryrun force log_level true [root_path] ++
   [Log ERROR ("Path supplied is not a directory: " +:+ quoted root_path)]).
Proof.
  intros Hdir. unfold main. run. cbn [length Nat.eqb negb list_get0].
  run. destruct (s !! root_path) as [[c |] |]; try reflexivity. now contradiction Hdir.
Qed.

Lemma main_recursive_dir (root_path : string) (s : fs) :
  s !! root_path = Some Dir ->
  main output_format dryrun force log_level true erase [root_path] s =
  prepend
    (main_debug_log output_format dryrun force log_level true [root_path] ++
     [Log INFO ("Transforming files recursively from root directory: " +:+ quoted root_path)])
    (dispatch_transformation (collect_files (os_walk s root_path))
       dryrun force erase log_level s).
Proof.
  intros Hdir. unfold main. run. cbn [length Nat.eqb negb list_get0].
  run. reflexivity.
Qed.

Lemma main_flat (input_files : list string) (s : fs) :
  main output_format dryrun force log_level false erase input_files s =
  prepend (main_debug_log output_format dryrun force log_level false input_files)
    (dispatch_transformation input_files dryrun force erase log_level s).
Proof. unfold main. run. reflexivity. Qed.

End Main.

(** ** Dry runs *)

(** A dry run starts neither the transcoder nor the tag writer. *)
Lemma dry_run_invokes_no_tool (input_file : string) (force erase : bool)
    (log_level : string) (s : fs) :
  Forall (fun e => invokes_tool e = false)
    (events_of (transform_video input_file true force erase log_level s)).
Proof.
  destruct (ffmpeg_log_level log_level) as [v | x] eqn:Hv.
  2:{ unfold transform_video. run. constructor. }
  destruct (s !! input_file) as [n |] eqn:Hin.
  2:{ rewrite (transform_video_missing _ _ _ _ _ _ _ Hv Hin). repeat constructor. }
  destruct (exif_get_metadata s input_file) as [[|m ms] |] eqn:Hmeta.
  1,3: unfold transform_video; run; repeat constructor.
  rewrite (transform_video_read _ _ _ _ _ _ _ _ _ _ Hv Hin Hmeta). cbv zeta.
  destruct (s !! output_file_of input_file) as [[c |] |] eqn:Hout;
    destruct force, erase; run;
    try (rewrite transcode_now_dry); try (destruct n; run);
    unfold_ops;
    repeat match goal with H : ?l = _ |- context [?l] => rewrite H end;
    repeat constructor.
Qed.

(** ** The claims *)

(** C3. For a file that passed the filter, whose output already exists,
    with [force] unset and [erase] set: the input file is deleted, the
    output is left as it was, neither the transcoder nor the tag writer is
    started, and the function returns normally right after the deletion. *)
Theorem C3_erase_deletes_input_only (input_file : string) (dry_run : bool)
    (log_level v : string) (s : fs) (c : content) (out : node content)
    (m : tags) (ms : list tags) :
  ffmpeg_log_level log_level = Ok v ->
  supported_input_format input_file = true ->
  s !! input_file = Some (File c) ->
  exif_get_metadata s input_file = Some (m :: ms) ->
  s !! output_file_of input_file = Some out ->
  let r := transform_video input_file dry_run false true log_level s in
  res_of r = Ok tt
  /\ fs_of r = delete input_file s
  /\ fs_of r !! input_file = None
  /\ fs_of r !! output_file_of input_file = Some out
  /\ events_of r =
       [announce input_file dry_run; GetMetadata input_file;
        detected input_file (datetags_of m);
        Log WARNING (quoted input_file +:+ " already transformed. Deleting.");
        Remove input_file]
  /\ Forall (fun e => invokes_tool e = false) (events_of r).
Proof.
  intros Hv Hsup Hin Hmeta Hout r. subst r.
  rewrite (transform_video_erase _ _ _ _ _ _ _ _ _ Hv Hin Hmeta Hout).
  cbn [res_of fs_of events_of fst snd]. split_and!; try reflexivity.
  - apply lookup_delete_eq.
  - rewrite lookup_delete_ne; [assumption |].
    intros E. symmetry in E. revert E. now apply supported_output_differs.
  - repeat constructor.
Qed.

(** C4. The Extension Filter accepts a name exactly when its final segment
    (what follows the last ".") equals one of the fourteen allow-list
    entries without regard to case, that is once both are upper-cased as
    [str.upper] does; for a final segment of ASCII characters this is
    equality letter by letter up to the case of a-z.  It is a function to
    [bool], and a name it rejects is dropped from the dispatch loop without
    a trace. *)
Theorem C4_extension_filter (name ext : string) :
  final_segment name ext ->
  (supported_input_format name = true <->
   exists e,
     In e ["MKV"; "AVI"; "MPG"; "WMV"; "MOV"; "M4V"; "3GP"; "MPEG"; "MPE"; "OGM";
           "FLV"; "DIVX"; "VOB"; "QT"] /\ upper ext = upper e)
  /\ (is_ascii ext = true ->
      (supported_input_format name = true <->
       exists e,
         In e ["MKV"; "AVI"; "MPG"; "WMV"; "MOV"; "M4V"; "3GP"; "MPEG"; "MPE"; "OGM";
               "FLV"; "DIVX"; "VOB"; "QT"] /\ eq_nocase ext e = true))
  /\ (supported_input_format name = false ->
      forall rest dryrun force erase log_level s,
        dispatch_transformation (name :: rest) dryrun force erase log_level s =
        dispatch_transformation rest dryrun force erase log_level s).
Proof.
  intros Hseg. split_and!.
  - apply (supported_iff_upper name ext Hseg).
  - intros Hascii. apply (supported_iff_nocase name ext Hseg Hascii).
  - intros H rest dryrun force erase log_level s. now apply dispatch_unsupported.
Qed.

(** C5. The output name replaces only what follows the last "." by "MP4":
    for a path [pre.ext] with no "." in [ext] it is [pre.MP4], with [pre]
    kept as it is. *)
Theorem C5_output_replaces_final_segment (pre ext : string) :
  dot_free ext = true ->
  output_file_of (pre +:+ "." +:+ ext) = pre +:+ ".MP4".
Proof. apply output_file_of_final. Qed.

(** C6. In recursive mode, a number of paths other than one, or a single
    path that is not a directory, ends in one error message after the six
    debug lines, with the file system untouched and nothing dispatched; a
    single path that is a directory is walked and every file found is
    dispatched. *)
Theorem C6_recursive_configuration (output_format : option string)
    (dryrun force erase : bool) (log_level : string) (input_files : list string) (s : fs) :
  let r := main output_format dryrun force log_level true erase input_files s in
  ((length input_files <> 1 \/ exists p, input_files = [p] /\ s !! p <> Some Dir) ->
   res_of r = Ok tt /\ fs_of r = s /\
   Forall (fun e => is_log e = true) (events_of r) /\
   exists msg, events_of r =
     main_debug_log output_format dryrun force log_level true input_files ++
     [Log ERROR msg])
  /\ (forall p, input_files = [p] -> s !! p = Some Dir ->
      r = prepend
            (main_debug_log output_format dryrun force log_level true [p] ++
             [Log INFO ("Transforming files recursively from root directory: " +:+ quoted p)])
            (dispatch_transformation (collect_files (os_walk s p))
               dryrun force erase log_level s)).
Proof.
  intros r. subst r. split.
  - intros [Hlen | [p [-> Hdir]]].
    + rewrite (main_recursive_bad_count _ _ _ _ _ _ _ Hlen).
      split_and!; [reflexivity | reflexivity | repeat constructor | eexists; reflexivity].
    + rewrite (main_recursive_not_dir _ _ _ _ _ _ _ Hdir).
      split_and!; [reflexivity | reflexivity | repeat constructor | eexists; reflexivity].
  - intros p -> Hdir. now apply main_recursive_dir.
Qed.

(** C7. A file of the list that does not exist when its turn comes gets
    the opening line and an error line in the log, and nothing else: no
    metadata read, no deletion, no transcoding.  The loop goes on, and the
    files after it are processed exactly as if it had not been listed. *)
Theorem C7_missing_input_skipped (before after : list string) (file : string)
    (dryrun force erase : bool) (log_level v : string) (s : fs) :
  ffmpeg_log_level log_level = Ok v ->
  let r1 := dispatch_transformation before dryrun force erase log_level s in
  res_of r1 = Ok tt ->
  fs_of r1 !! file = None ->
  let r2 := dispatch_transformation after dryrun force erase log_level (fs_of r1) in
  transform_video file dryrun force erase log_level (fs_of r1) =
    (Ok tt, fs_of r1, missing_report file dryrun)
  /\ dispatch_transformation (before ++ file :: after) dryrun force erase log_level s =
     (res_of r2, fs_of r2,
      events_of r1 ++
      (if supported_input_format file then missing_report file dryrun else []) ++
      events_of r2)
  /\ dispatch_transformation (before ++ after) dryrun force erase log_level s =
     (res_of r2, fs_of r2, events_of r1 ++ events_of r2).
Proof.
  intros Hv r1 Hok Hmiss r2.
  pose proof (transform_video_missing file dryrun force erase _ _ _ Hv Hmiss) as Htv.
  assert (Hr1 : dispatch_transformation before dryrun force erase log_level s =
                (Ok tt, fs_of r1, events_of r1)).
  { rewrite (run_eta (dispatch_transformation _ _ _ _ _ s)). fold r1. now rewrite Hok. }
  split; [exact Htv |]. split.
  - rewrite dispatch_app, (bind_step _ _ _ _ _ _ Hr1).
    destruct (supported_input_format file) eqn:Hsup.
    + rewrite dispatch_cons, Hsup, (bind_step _ _ _ _ _ _ Htv), prepend_prepend.
      unfold prepend. now rewrite app_assoc.
    + rewrite dispatch_unsupported by assumption. reflexivity.
  - rewrite dispatch_app, (bind_step _ _ _ _ _ _ Hr1). reflexivity.
Qed.

(** C8. The date tags are the metadata fields whose key contains "Date",
    each with the value the metadata gives it; of "CreateDate",
    "ModifyDate" and "Model" only the first two are kept. *)
Theorem C8_datetags_exactly_date_keys :
  (forall (metadata : tags) (key : string) (x : tagval),
     datetags_of metadata !! key = Some x <->
     metadata !! key = Some x /\ substring_of "Date" key)
  /\ (forall a b c : tagval,
        datetags_of (<["CreateDate" := a]> (<["ModifyDate" := b]> (<["Model" := c]> ∅))) =
        <["CreateDate" := a]> (<["ModifyDate" := b]> ∅)).
Proof.
  split.
  - intros metadata key x. unfold datetags_of.
    rewrite map_lookup_filter_Some. cbn. now rewrite contains_substring.
  - intros a b c. unfold datetags_of.
    rewrite map_filter_insert_True by reflexivity.
    rewrite map_filter_insert_True by reflexivity.
    rewrite map_filter_insert_False by (cbn; discriminate).
    rewrite delete_empty. now rewrite map_filter_empty.
Qed.

(** C9. Whenever the input exists, its metadata is read first: the read
    comes right after the opening log line and before every deletion,
    transcoder call or tag write, for every choice of [dry_run], [force]
    and [erase] and whether or not the output exists. *)
Theorem C9_metadata_read_first (input_file : string) (dry_run force erase : bool)
    (log_level v : string) (s : fs) (n : node content) :
  ffmpeg_log_level log_level = Ok v ->
  s !! input_file = Some n ->
  exists pre post,
    events_of (transform_video input_file dry_run force erase log_level s) =
      pre ++ GetMetadata input_file :: post
    /\ Forall (fun e => destructive e = false) pre.
Proof.
  intros Hv Hin.
  destruct (transform_video_reads_first input_file dry_run force erase _ _ _ _ Hv Hin)
    as [post Hpost].
  exists [announce input_file dry_run], post. split; [exact Hpost |].
  repeat constructor.
Qed.

(** C10. A name without "." that is an allow-list entry once upper-cased
    passes the filter, and its output name is ".MP4". *)
Theorem C10_dotless_name (name : string) :
  dot_free name = true ->
  In (upper name) allowed_extensions ->
  supported_input_format name = true /\ output_file_of name = ".MP4".
Proof.
  intros Hfree Hin. unfold supported_input_format, output_file_of.
  rewrite (split_dot_free name Hfree). cbn [List.last removelast join].
  split; [now apply str_in_In | reflexivity].
Qed.

(** ** More on names: outputs, case and paths of the walk *)

Lemma slen_app (a b : string) : String.length (a +:+ b) = String.length a + String.length b.
Proof. induction a as [|c a IH]; cbn; [reflexivity | now rewrite IH]. Qed.

Lemma sapp_inv_tail (a b t : string) : a +:+ t = b +:+ t -> a = b.
Proof.
  revert b. induction a as [|c a IH]; intros [|d b] H; cbn in H.
  - reflexivity.
  - apply (f_equal String.length) in H. cbn in H. rewrite slen_app in H. lia.
  - apply (f_equal String.length) in H. cbn in H. rewrite slen_app in H. lia.
  - injection H as -> H. now rewrite (IH b H).
Qed.

Lemma upper_az_app (a b : string) : upper_az (a +:+ b) = upper_az a +:+ upper_az b.
Proof. induction a as [|c a IH]; cbn; [reflexivity | now rewrite IH]. Qed.

(** Upper-casing never produces, and never removes, a character below
    "A" such as "." or "/". *)
Lemma upper_ascii_eqb_low (c c0 : ascii) :
  nat_of_ascii c0 < 65 -> Ascii.eqb (upper_ascii c) c0 = Ascii.eqb c c0.
Proof.
  intros Hlow. unfold upper_ascii. destruct (is_lower c) eqn:Hc; [| reflexivity].
  unfold is_lower in Hc. apply andb_prop in Hc as [H1 H2].
  apply Nat.leb_le in H1, H2.
  assert (Ascii.eqb c c0 = false) as ->.
  { apply Ascii.eqb_neq. intros ->. lia. }
  apply Ascii.eqb_neq. intros E. apply (f_equal nat_of_ascii) in E.
  rewrite nat_ascii_embedding in E by lia. lia.
Qed.

Lemma upper_ascii_idem (c : ascii) : upper_ascii (upper_ascii c) = upper_ascii c.
Proof.
  destruct (is_lower c) eqn:Hc.
  - assert (Hu : upper_ascii c = ascii_of_nat (nat_of_ascii c - 32)).
    { unfold upper_ascii. now rewrite Hc. }
    rewrite Hu. unfold is_lower in Hc. apply andb_prop in Hc as [H1 H2].
    apply Nat.leb_le in H1, H2.
    unfold upper_ascii, is_lower. rewrite nat_ascii_embedding by lia.
    replace (97 <=? nat_of_ascii c - 32) with false; [reflexivity |].
    symmetry. apply Nat.leb_gt. lia.
  - unfold upper_ascii. now rewrite !Hc.
Qed.

Lemma upper_az_idem (s : string) : upper_az (upper_az s) = upper_az s.
Proof. induction s as [|c s IH]; cbn; [reflexivity | now rewrite upper_ascii_idem, IH]. Qed.

Lemma has_char_app (c : ascii) (a b : string) :
  has_char c (a +:+ b) = has_char c a || has_char c b.
Proof.
  induction a as [|x a IH]; cbn; [reflexivity |]. now rewrite IH, orb_assoc.
Qed.

(** A capital made from an ASCII character is ASCII, and a byte outside
    ASCII is no letter a-z. *)
Lemma upper_ascii_is_ascii (c : ascii) :
  is_ascii_char (upper_ascii c) = is_ascii_char c.
Proof.
  unfold upper_ascii. destruct (is_lower c) eqn:Hc; [| reflexivity].
  unfold is_lower in Hc. apply andb_prop in Hc as [H1 H2].
  apply Nat.leb_le in H1, H2. unfold is_ascii_char.
  rewrite nat_ascii_embedding by lia.
  transitivity true; [apply Nat.ltb_lt; lia | symmetry; apply Nat.ltb_lt; lia].
Qed.

Lemma upper_ascii_non_ascii (c : ascii) :
  is_ascii_char c = false -> upper_ascii c = c.
Proof.
  intros H. unfold is_ascii_char in H. apply Nat.ltb_ge in H.
  unfold upper_ascii, is_lower.
  replace (nat_of_ascii c <=? 122) with false; [now rewrite andb_false_r |].
  symmetry. apply Nat.leb_gt. lia.
Qed.

(** [str.upper] gives the same on a name and on the name with its letters
    a-z made capital. *)
Lemma upper_from_upper_az (run s : string) :
  upper_from run (upper_az s) = upper_from run s.
Proof.
  revert run. induction s as [|c s IH]; intros run; cbn [upper_az upper_from];
    [reflexivity |].
  rewrite upper_ascii_is_ascii. destruct (is_ascii_char c) eqn:Hc.
  - now rewrite upper_ascii_idem, IH.
  - rewrite (upper_ascii_non_ascii c Hc). apply IH.
Qed.

(** [str.upper] never removes a character below "A" such as "/". *)
Lemma has_char_upper_from (c0 : ascii) (run s : string) :
  nat_of_ascii c0 < 65 ->
  has_char c0 s = true -> has_char c0 (upper_from run s) = true.
Proof.
  intros Hlow. revert run. induction s as [|c s IH]; intros run;
    cbn [upper_from has_char]; [discriminate |].
  intros H. destruct (is_ascii_char c) eqn:Hc.
  - rewrite has_char_app. cbn [has_char]. rewrite upper_ascii_eqb_low by assumption.
    apply orb_true_iff in H as [H | H].
    + rewrite H. cbn. apply orb_true_r.
    + rewrite (IH EmptyString H). rewrite !orb_true_r. reflexivity.
  - apply orb_true_iff in H as [H | H].
    + apply Ascii.eqb_eq in H. subst c0.
      unfold is_ascii_char in Hc. apply Nat.ltb_ge in Hc. lia.
    + now apply IH.
Qed.

Lemma split_upper (s : string) : split dot (upper_az s) = map upper_az (split dot s).
Proof.
  induction s as [|c s IH]; cbn; [reflexivity |].
  rewrite upper_ascii_eqb_low by (apply Nat.ltb_lt; reflexivity). rewrite IH.
  destruct (Ascii.eqb c dot); [reflexivity |].
  pose proof (split_not_nil dot s) as Hne.
  destruct (split dot s); [contradiction | reflexivity].
Qed.

Lemma last_map_upper (l : list string) :
  List.last (map upper_az l) EmptyString = upper_az (List.last l EmptyString).
Proof.
  induction l as [|a l IH]; [reflexivity |].
  destruct l as [|b l]; [reflexivity |]. exact IH.
Qed.

Lemma has_char_upper (c0 : ascii) (s : string) :
  nat_of_ascii c0 < 65 -> has_char c0 (upper_az s) = has_char c0 s.
Proof.
  intros Hlow. induction s as [|c s IH]; cbn; [reflexivity |].
  now rewrite upper_ascii_eqb_low, IH.
Qed.

Lemma allowed_no_slash (e : string) : In e allowed_extensions -> has_char "/" e = false.
Proof.
  intros H. cbn in H.
  repeat (destruct H as [<- | H]; [reflexivity |]). contradiction.
Qed.

(** Appending text without "." extends the last segment. *)
Lemma split_app_dot_free (x r : string) :
  dot_free r = true ->
  split dot (x +:+ r) =
  removelast (split dot x) ++ [List.last (split dot x) EmptyString +:+ r].
Proof.
  intros Hr. induction x as [|c x IH]; cbn.
  - now apply split_dot_free.
  - pose proof (split_not_nil dot x) as Hne. rewrite IH.
    destruct (Ascii.eqb c dot).
    + destruct (split dot x) as [|hd tl]; [contradiction | reflexivity].
    + destruct (split dot x) as [|hd tl]; [contradiction |].
      destruct tl as [|h2 tl]; reflexivity.
Qed.

Lemma last_split_app_dot_free (x r : string) :
  dot_free r = true ->
  List.last (split dot (x +:+ r)) EmptyString = List.last (split dot x) EmptyString +:+ r.
Proof. intros Hr. rewrite split_app_dot_free by assumption. apply last_last. Qed.

Lemma ends_with_app (c : ascii) (a : string) :
  ends_with c a = true -> exists u, a = u +:+ String c EmptyString.
Proof.
  induction a as [|x a IH]; [discriminate |].
  destruct a as [|y a].
  - cbn. intros H. apply Ascii.eqb_eq in H. subst. now exists EmptyString.
  - intros H. destruct (IH H) as [u Hu]. exists (String x u). cbn. now rewrite <- Hu.
Qed.

(** [os.path.join] keeps its second component at the end. *)
Lemma os_path_join_suffix (a b : string) : exists u, os_path_join a b = u +:+ b.
Proof.
  unfold os_path_join. destruct (starts_with "/" b).
  - now exists EmptyString.
  - destruct (_ || _); [now exists a |].
    exists (a +:+ "/"). now rewrite sapp_assoc.
Qed.

(** ** Further properties of the pure functions *)

Lemma ffmpeg_log_level_cases (log_level : string) :
  (In log_level cli_log_levels /\ exists v, ffmpeg_log_level log_level = Ok v)
  \/ (~ In log_level cli_log_levels /\ ffmpeg_log_level log_level = Raise KeyError).
Proof.
  unfold ffmpeg_log_level, log_level_map, cli_log_levels. cbn [dict_get].
  destruct (String.eqb log_level "DEBUG") eqn:E1;
    [apply String.eqb_eq in E1; left; split; [now left | eauto] |].
  destruct (String.eqb log_level "INFO") eqn:E2;
    [apply String.eqb_eq in E2; left; split; [now right; left | eauto] |].
  destruct (String.eqb log_level "WARNING") eqn:E3;
    [apply String.eqb_eq in E3; left; split; [now right; right; left | eauto] |].
  destruct (String.eqb log_level "ERROR") eqn:E4;
    [apply String.eqb_eq in E4; left; split; [now right; right; right; left | eauto] |].
  right. split; [| reflexivity].
  apply String.eqb_neq in E1, E2, E3, E4.
  intros [H | [H | [H | [H | []]]]]; congruence.
Qed.

(** X1. The verbosity table answers exactly the four [--log-level]
    choices; any other string is a [KeyError]. *)
Theorem ffmpeg_log_level_domain (log_level : string) :
  (In log_level cli_log_levels /\ exists v, ffmpeg_log_level log_level = Ok v)
  \/ (~ In log_level cli_log_levels /\ ffmpeg_log_level log_level = Raise KeyError).
Proof. apply ffmpeg_log_level_cases. Qed.

(** Neither an output name nor the name of its backup copy passes the
    filter. *)
Lemma output_names_unsupported (name : string) :
  supported_input_format (output_file_of name) = false
  /\ supported_input_format (output_file_of name +:+ "_original") = false.
Proof.
  unfold output_file_of. set (stem := join "." (removelast (split dot name))).
  split.
  - unfold supported_input_format.
    rewrite (last_segment (stem +:+ ".MP4") "MP4"); [reflexivity |].
    split; [reflexivity | right; now exists stem].
  - unfold supported_input_format.
    rewrite (last_segment ((stem +:+ ".MP4") +:+ "_original") "MP4_original"); [reflexivity |].
    split; [reflexivity | right; exists stem; now rewrite sapp_assoc].
Qed.

(** X2. An output name is never accepted by the filter, and neither is
    the name of the backup copy that the tag writer leaves behind: what
    the tool produces is not taken as input by a later run. *)
Theorem outputs_are_not_inputs (name : string) :
  supported_input_format (output_file_of name) = false
  /\ supported_input_format (output_file_of name +:+ "_original") = false.
Proof. apply output_names_unsupported. Qed.

(** X3. Computing the output name of an output name changes nothing. *)
Theorem output_file_of_idempotent (name : string) :
  output_file_of (output_file_of name) = output_file_of name.
Proof.
  unfold output_file_of at 2. set (stem := join "." (removelast (split dot name))).
  apply (output_file_of_final stem "MP4"). reflexivity.
Qed.

(** X4. The filter does not look at the case of any letter a-z of the
    name: making them all capital leaves its verdict unchanged. *)
Theorem supported_input_format_upper (name : string) :
  supported_input_format (upper_az name) = supported_input_format name.
Proof.
  unfold supported_input_format, upper.
  now rewrite split_upper, last_map_upper, upper_from_upper_az.
Qed.

(** X5. Two names with an extension get the same output name exactly
    when they agree on everything before the last ".": the extension
    itself plays no part, so "a.MOV" and "a.AVI" share one output. *)
Theorem output_file_of_same_stem (pre1 ext1 pre2 ext2 : string) :
  dot_free ext1 = true -> dot_free ext2 = true ->
  (output_file_of (pre1 +:+ "." +:+ ext1) = output_file_of (pre2 +:+ "." +:+ ext2)
   <-> pre1 = pre2).
Proof.
  intros H1 H2. rewrite !output_file_of_final by assumption. split.
  - apply sapp_inv_tail.
  - now intros ->.
Qed.

(** X6. In a recursive walk the path handed to the filter is
    [os.path.join(root, filename)].  When the file name has no "." and
    the root is not empty, the path is rejected whatever the name is; a
    bare name such as "mov" passes the filter only when given directly. *)
Theorem walked_dotless_name_rejected (root filename : string) :
  root <> EmptyString -> dot_free filename = true ->
  supported_input_format (os_path_join root filename) = false.
Proof.
  intros Hroot Hfree.
  assert (Hdec : exists u b, os_path_join root filename = u +:+ String "/" b
                             /\ dot_free b = true).
  { unfold os_path_join. destruct filename as [|c f] eqn:Ef.
    - cbn [starts_with]. destruct (String.eqb root EmptyString) eqn:E0;
        [apply String.eqb_eq in E0; contradiction |]. cbn [orb].
      destruct (ends_with "/" root) eqn:Ee.
      + destruct (ends_with_app _ _ Ee) as [u Hu]. exists u, EmptyString.
        rewrite sapp_nil_r. now split.
      + exists root, EmptyString. now rewrite sapp_nil_r.
    - cbn [starts_with]. destruct (Ascii.eqb c "/") eqn:Ec.
      + apply Ascii.eqb_eq in Ec. subst c. exists EmptyString, f. split; [reflexivity |].
        cbn in Hfree. exact Hfree.
      + destruct (String.eqb root EmptyString) eqn:E0;
          [apply String.eqb_eq in E0; contradiction |]. cbn [orb].
        destruct (ends_with "/" root) eqn:Ee.
        * destruct (ends_with_app _ _ Ee) as [u Hu]. exists u, (String c f).
          split; [| assumption]. rewrite Hu at 1. now rewrite sapp_assoc.
        * exists root, (String c f). now split. }
  destruct Hdec as [u [b [-> Hb]]].
  unfold supported_input_format.
  rewrite last_split_app_dot_free by (cbn; now rewrite Hb).
  destruct (str_in _ allowed_extensions) eqn:Hin; [| reflexivity].
  apply str_in_In, allowed_no_slash in Hin.
  unfold upper in Hin.
  rewrite has_char_upper_from in Hin; [discriminate | apply Nat.ltb_lt; reflexivity |].
  rewrite has_char_app. cbn. apply orb_true_r.
Qed.

(** X7. When the file name has an extension, joining it to the root of
    the walk does not change the verdict of the filter. *)
Theorem walked_name_same_verdict (root pre ext : string) :
  dot_free ext = true ->
  supported_input_format (os_path_join root (pre +:+ "." +:+ ext)) =
  supported_input_format (pre +:+ "." +:+ ext).
Proof.
  intros Hfree. destruct (os_path_join_suffix root (pre +:+ "." +:+ ext)) as [u ->].
  unfold supported_input_format.
  rewrite (last_segment (u +:+ pre +:+ "." +:+ ext) ext).
  - now rewrite (last_segment (pre +:+ "." +:+ ext) ext) by (split; eauto).
  - split; [assumption |]. right. exists (u +:+ pre). now rewrite sapp_assoc.
Qed.

(** ** Every branch of the transcode step and of [transform_video] *)

Lemma events_of_prepend {A} (e : list ev) (r : result A * fs * list ev) :
  events_of (prepend e r) = e ++ events_of r.
Proof. reflexivity. Qed.

Lemma fs_of_prepend {A} (e : list ev) (r : result A * fs * list ev) :
  fs_of (prepend e r) = fs_of r.
Proof. reflexivity. Qed.

Lemma res_of_prepend {A} (e : list ev) (r : result A * fs * list ev) :
  res_of (prepend e r) = res_of r.
Proof. reflexivity. Qed.

(** Evaluate what is left once [run] has taken every step it can. *)
Ltac finish_run :=
  unfold_ops;
  repeat match goal with H : ?l = _ |- context [?l] => rewrite H end;
  cbn [prepend res_of fs_of events_of fst snd app].

Section Transcode.

Variables (cmd out : string) (t : tags) (s s2 : fs).

Let backup := out +:+ "_original".

Lemma transcode_now_tags_fail :
  exif_set_tags out t (shell_call cmd s) = None ->
  transcode_now cmd out false t s =
  (Raise ExifToolError, shell_call cmd s, [Shell cmd; SetTags out t]).
Proof. intros H. unfold transcode_now. cbn [negb]. run. reflexivity. Qed.

Lemma transcode_now_ok :
  exif_set_tags out t (shell_call cmd s) = Some s2 ->
  s2 !! backup = None ->
  transcode_now cmd out false t s =
  (Ok tt, s2,
   [Shell cmd; SetTags out t;
    Log DEBUG ("Removing exiftool renamed file " +:+ quoted backup);
    Log INFO (quoted out +:+ " created")]).
Proof.
  intros H Hb. subst backup. unfold transcode_now. cbn [negb]. run. reflexivity.
Qed.

Lemma transcode_now_ok_cleanup (c : content) :
  exif_set_tags out t (shell_call cmd s) = Some s2 ->
  s2 !! backup = Some (File c) ->
  transcode_now cmd out false t s =
  (Ok tt, delete backup s2,
   [Shell cmd; SetTags out t;
    Log DEBUG ("Removing exiftool renamed file " +:+ quoted backup);
    Remove backup;
    Log INFO (quoted out +:+ " created")]).
Proof.
  intros H Hb. subst backup. unfold transcode_now. cbn [negb]. run. reflexivity.
Qed.

Lemma transcode_now_backup_dir :
  exif_set_tags out t (shell_call cmd s) = Some s2 ->
  s2 !! backup = Some Dir ->
  transcode_now cmd out false t s =
  (Raise OSError, s2,
   [Shell cmd; SetTags out t;
    Log DEBUG ("Removing exiftool renamed file " +:+ quoted backup);
    Remove backup]).
Proof.
  intros H Hb. subst backup. unfold transcode_now. cbn [negb]. run. reflexivity.
Qed.

End Transcode.

(** The only file the transcode step removes is the backup copy. *)
Lemma transcode_now_removes (cmd out : string) (dry_run : bool) (t : tags) (s : fs)
    (p : string) :
  In (Remove p) (events_of (transcode_now cmd out dry_run t s)) ->
  dry_run = false /\ p = out +:+ "_original".
Proof.
  destruct dry_run; [intros [] |].
  destruct (exif_set_tags out t (shell_call cmd s)) as [s2 |] eqn:Hset.
  - destruct (s2 !! (out +:+ "_original")) as [[c |] |] eqn:Hb.
    + rewrite (transcode_now_ok_cleanup _ _ _ _ _ c Hset Hb). cbn.
      intros [H | [H | [H | [H | [H | []]]]]]; try discriminate. injection H as <-. now split.
    + rewrite (transcode_now_backup_dir _ _ _ _ _ Hset Hb). cbn.
      intros [H | [H | [H | [H | []]]]]; try discriminate. injection H as <-. now split.
    + rewrite (transcode_now_ok _ _ _ _ _ Hset Hb). cbn.
      intros [H | [H | [H | [H | []]]]]; discriminate.
  - rewrite (transcode_now_tags_fail _ _ _ _ Hset). cbn.
    intros [H | [H | []]]; discriminate.
Qed.

Section Branches.

Variables (input_file : string) (dry_run : bool) (log_level v : string) (s : fs).

Let out := output_file_of input_file.

Lemma transform_video_bad_level (force erase : bool) (x : exn) :
  ffmpeg_log_level log_level = Raise x ->
  transform_video input_file dry_run force erase log_level s = (Raise x, s, []).
Proof. intros Hv. unfold transform_video. run. reflexivity. Qed.

Lemma transform_video_meta_fail (force erase : bool) (n : node content) :
  ffmpeg_log_level log_level = Ok v ->
  s !! input_file = Some n ->
  (exif_get_metadata s input_file = None \/ exif_get_metadata s input_file = Some []) ->
  exists x,
    transform_video input_file dry_run force erase log_level s =
    (Raise x, s, [announce input_file dry_run; GetMetadata input_file]).
Proof.
  intros Hv Hin [Hm | Hm]; eexists; unfold transform_video;
    destruct dry_run; run; reflexivity.
Qed.

Variables (n : node content) (m : tags) (ms : list tags).
Hypothesis Hv : ffmpeg_log_level log_level = Ok v.
Hypothesis Hin : s !! input_file = Some n.
Hypothesis Hmeta : exif_get_metadata s input_file = Some (m :: ms).

(** Output present, neither [force] nor [erase]: a warning, nothing else. *)
Lemma transform_video_skip (o : node content) :
  s !! out = Some o ->
  transform_video input_file dry_run false false log_level s =
  (Ok tt, s,
   [announce input_file dry_run; GetMetadata input_file;
    detected input_file (datetags_of m);
    Log WARNING (quoted out +:+ " already exists. Skipping transformation.")]).
Proof.
  intros Hout. subst out.
  rewrite (transform_video_read _ _ _ _ _ _ _ _ _ _ Hv Hin Hmeta). cbv zeta.
  run. finish_run. reflexivity.
Qed.

(** Output absent: the transcode step runs on the file system as it is. *)
Lemma transform_video_fresh (force erase : bool) :
  s !! out = None ->
  transform_video input_file dry_run force erase log_level s =
  prepend [announce input_file dry_run; GetMetadata input_file;
           detected input_file (datetags_of m)]
    (transcode_now (ffmpeg_command_of v input_file out) out dry_run (datetags_of m) s).
Proof.
  intros Hout. subst out.
  rewrite (transform_video_read _ _ _ _ _ _ _ _ _ _ Hv Hin Hmeta). cbv zeta.
  run. unfold prepend. cbn [res_of fs_of events_of fst snd]. now rewrite app_nil_r.
Qed.

(** [force] on an output path that is a directory: [os.remove] raises. *)
Lemma transform_video_force_dir (erase : bool) :
  s !! out = Some Dir ->
  transform_video input_file dry_run true erase log_level s =
  (Raise OSError, s,
   [announce input_file dry_run; GetMetadata input_file;
    detected input_file (datetags_of m);
    Log INFO (quoted out +:+ " already exists. deleting before transformation.");
    Remove out]).
Proof.
  intros Hout. subst out.
  rewrite (transform_video_read _ _ _ _ _ _ _ _ _ _ Hv Hin Hmeta). cbv zeta.
  run. reflexivity.
Qed.

(** [erase] on an input path that is a directory: [os.remove] raises. *)
Lemma transform_video_erase_dir (o : node content) :
  n = Dir ->
  s !! out = Some o ->
  transform_video input_file dry_run false true log_level s =
  (Raise OSError, s,
   [announce input_file dry_run; GetMetadata input_file;
    detected input_file (datetags_of m);
    Log WARNING (quoted input_file +:+ " already transformed. Deleting.");
    Remove input_file]).
Proof.
  intros Hn Hout. subst out n.
  rewrite (transform_video_read _ _ _ _ _ _ _ _ _ _ Hv Hin Hmeta). cbv zeta.
  run. finish_run. reflexivity.
Qed.

End Branches.

(** ** What [transform_video] removes, and what a dry run leaves alone *)

Ltac in_cases H :=
  cbn [In app]; unfold missing_report, announce, detected; cbn [In app]; intros H;
  repeat (destruct H as [H | H]; [try discriminate; try (injection H as <-) |]);
  try contradiction.

(** Every [os.remove] of [transform_video] is one of three: the output
    under [force], the input under [erase] without [force], the backup
    copy after a real transcode. *)
Lemma transform_video_removes (input_file : string) (dry_run force erase : bool)
    (log_level : string) (s : fs) (p : string) :
  In (Remove p) (events_of (transform_video input_file dry_run force erase log_level s)) ->
  (force = true /\ p = output_file_of input_file)
  \/ (force = false /\ erase = true /\ p = input_file)
  \/ (dry_run = false /\ p = output_file_of input_file +:+ "_original").
Proof.
  destruct (ffmpeg_log_level log_level) as [v | x] eqn:Hv.
  2:{ rewrite (transform_video_bad_level _ _ _ _ _ _ _ Hv). intros []. }
  destruct (s !! input_file) as [n |] eqn:Hin.
  2:{ rewrite (transform_video_missing _ _ _ _ _ _ _ Hv Hin). in_cases H. }
  destruct (exif_get_metadata s input_file) as [[|m ms] |] eqn:Hmeta.
  1,3: destruct (transform_video_meta_fail input_file dry_run log_level v s force erase n
                   Hv Hin ltac:(auto)) as [x ->]; in_cases H.
  destruct (s !! output_file_of input_file) as [o |] eqn:Hout.
  - destruct force.
    + destruct o as [c |].
      * rewrite (transform_video_force _ _ _ _ _ _ _ _ _ _ Hv Hin Hmeta Hout). cbv zeta.
        rewrite events_of_prepend. intros H. apply in_app_or in H as [H | H].
        -- revert H. in_cases H. left. now split.
        -- apply transcode_now_removes in H. right. right. exact H.
      * rewrite (transform_video_force_dir _ _ _ _ _ _ _ _ Hv Hin Hmeta _ Hout).
        in_cases H. left. now split.
    + destruct erase.
      * destruct n as [c |].
        -- rewrite (transform_video_erase _ _ _ _ _ _ _ _ _ Hv Hin Hmeta Hout).
           in_cases H. right. left. now split.
        -- rewrite (transform_video_erase_dir _ _ _ _ _ _ _ _ Hv Hin Hmeta _ eq_refl Hout).
           in_cases H. right. left. now split.
      * rewrite (transform_video_skip _ _ _ _ _ _ _ _ Hv Hin Hmeta _ Hout). in_cases H.
  - rewrite (transform_video_fresh _ _ _ _ _ _ _ _ Hv Hin Hmeta _ _ Hout).
    rewrite events_of_prepend. intros H. apply in_app_or in H as [H | H].
    + revert H. in_cases H.
    + apply transcode_now_removes in H. right. right. exact H.
Qed.

(** A dry run never adds an entry to the file system and never changes
    one: what is there afterwards was there before. *)
Lemma dry_run_shrinks (input_file : string) (force erase : bool)
    (log_level : string) (s : fs) :
  fs_of (transform_video input_file true force erase log_level s) ⊆ s.
Proof.
  destruct (ffmpeg_log_level log_level) as [v | x] eqn:Hv.
  2:{ now rewrite (transform_video_bad_level _ _ _ _ _ _ _ Hv). }
  destruct (s !! input_file) as [n |] eqn:Hin.
  2:{ now rewrite (transform_video_missing _ _ _ _ _ _ _ Hv Hin). }
  destruct (exif_get_metadata s input_file) as [[|m ms] |] eqn:Hmeta.
  1,3: destruct (transform_video_meta_fail input_file true log_level v s force erase n
                   Hv Hin ltac:(auto)) as [x ->]; reflexivity.
  destruct (s !! output_file_of input_file) as [o |] eqn:Hout.
  - destruct force.
    + destruct o as [c |].
      * rewrite (transform_video_force _ _ _ _ _ _ _ _ _ _ Hv Hin Hmeta Hout). cbv zeta.
        rewrite fs_of_prepend, transcode_now_dry. apply delete_subseteq.
      * now rewrite (transform_video_force_dir _ _ _ _ _ _ _ _ Hv Hin Hmeta _ Hout).
    + destruct erase.
      * destruct n as [c |].
        -- rewrite (transform_video_erase _ _ _ _ _ _ _ _ _ Hv Hin Hmeta Hout).
           apply delete_subseteq.
        -- now rewrite (transform_video_erase_dir _ _ _ _ _ _ _ _ Hv Hin Hmeta _ eq_refl Hout).
      * now rewrite (transform_video_skip _ _ _ _ _ _ _ _ Hv Hin Hmeta _ Hout).
  - rewrite (transform_video_fresh _ _ _ _ _ _ _ _ Hv Hin Hmeta _ _ Hout).
    now rewrite fs_of_prepend, transcode_now_dry.
Qed.

(** The same two facts for a whole list of files. *)
Lemma dispatch_dry_run (l : list string) (force erase : bool) (log_level : string) (s : fs) :
  Forall (fun e => invokes_tool e = false)
    (events_of (dispatch_transformation l true force erase log_level s))
  /\ fs_of (dispatch_transformation l true force erase log_level s) ⊆ s.
Proof.
  revert s. induction l as [|file rest IH]; intros s.
  - split; [constructor | reflexivity].
  - rewrite dispatch_cons.
    assert (Hhead :
      Forall (fun e => invokes_tool e = false)
        (events_of ((if supported_input_format file
                     then transform_video file true force erase log_level
                     else ret tt) s))
      /\ fs_of ((if supported_input_format file
                 then transform_video file true force erase log_level
                 else ret tt) s) ⊆ s).
    { destruct (supported_input_format file).
      - split; [apply dry_run_invokes_no_tool | apply dry_run_shrinks].
      - split; [constructor | reflexivity]. }
    destruct ((if supported_input_format file
               then transform_video file true force erase log_level
               else ret tt) s) as [[[a | x] s'] e1] eqn:E;
      cbn [events_of fs_of fst snd] in Hhead; destruct Hhead as [He Hs].
    + rewrite (bind_step _ _ _ _ _ _ E), events_of_prepend, fs_of_prepend.
      destruct (IH s') as [IHe IHs]. split.
      * apply Forall_app. now split.
      * now transitivity s'.
    + rewrite (bind_stop _ _ _ _ _ _ E). now split.
Qed.

(** ** [force] on an existing output *)

(** C2. In a run without [dry_run], when the computed output file already
    exists as a file and [force] is set, the existing output is deleted and
    processing goes on to transcode: the transcoder is run with the
    command of line 27 on the file system without the old output, the
    date tags are written onto what it produced, the backup copy is
    cleaned up and the function returns with the file system the tag
    writer left, less the backup copy.  When the tag writer raises, or
    the backup path is a directory, the exception escapes after the
    transcoder has run.  [erase] plays no part: the run is the same with
    it set or unset. *)
Theorem C2_force_regenerates_in_real_run (input_file : string) (erase : bool)
    (log_level v : string) (s : fs) (n : node content) (c : content)
    (m : tags) (ms : list tags) :
  ffmpeg_log_level log_level = Ok v ->
  s !! input_file = Some n ->
  exif_get_metadata s input_file = Some (m :: ms) ->
  s !! output_file_of input_file = Some (File c) ->
  let out := output_file_of input_file in
  let cmd := ffmpeg_command_of v input_file out in
  let backup := out +:+ "_original" in
  let s1 := shell_call cmd (delete out s) in
  let r := transform_video input_file false true erase log_level s in
  let opening :=
    [announce input_file false; GetMetadata input_file;
     detected input_file (datetags_of m);
     Log INFO (quoted out +:+ " already exists. deleting before transformation.");
     Remove out; Shell cmd; SetTags out (datetags_of m)] in
  (forall s2,
     exif_set_tags out (datetags_of m) s1 = Some s2 ->
     s2 !! backup <> Some Dir ->
     res_of r = Ok tt /\ fs_of r = delete backup s2 /\
     events_of r =
       opening ++
       [Log DEBUG ("Removing exiftool renamed file " +:+ quoted backup)] ++
       match s2 !! backup with Some _ => [Remove backup] | None => [] end ++
       [Log INFO (quoted out +:+ " created")])
  /\ (forall s2,
       exif_set_tags out (datetags_of m) s1 = Some s2 ->
       s2 !! backup = Some Dir ->
       r = (Raise OSError, s2,
            opening ++
            [Log DEBUG ("Removing exiftool renamed file " +:+ quoted backup);
             Remove backup]))
  /\ (exif_set_tags out (datetags_of m) s1 = None ->
      r = (Raise ExifToolError, s1, opening))
  /\ transform_video input_file false true true log_level s =
     transform_video input_file false true false log_level s.
Proof.
  intros Hv Hin Hmeta Hout out cmd backup s1 r opening.
  subst out cmd backup s1 r opening.
  rewrite !(transform_video_force _ _ _ _ _ _ _ _ _ _ Hv Hin Hmeta Hout). cbv zeta.
  split_and!.
  - intros s2 Hset Hb.
    destruct (s2 !! (output_file_of input_file +:+ "_original")) as [[x |] |] eqn:Hbk.
    + rewrite (transcode_now_ok_cleanup _ _ _ _ _ x Hset Hbk).
      split_and!; reflexivity.
    + contradiction.
    + rewrite (transcode_now_ok _ _ _ _ _ Hset Hbk).
      cbn [prepend res_of fs_of events_of fst snd app].
      split_and!; try reflexivity. now rewrite delete_id.
  - intros s2 Hset Hbk. now rewrite (transcode_now_backup_dir _ _ _ _ _ Hset Hbk).
  - intros Hset. now rewrite (transcode_now_tags_fail _ _ _ _ Hset).
  - reflexivity.
Qed.

(** ** Further properties of the lifecycle *)

(** X8. With a log level outside the table, [transform_video] raises
    [KeyError] at once (line 27): nothing is logged, read or changed,
    whatever the flags and whether or not the input exists. *)
Theorem unknown_log_level_raises (input_file : string) (dry_run force erase : bool)
    (log_level : string) (s : fs) :
  ~ In log_level cli_log_levels ->
  transform_video input_file dry_run force erase log_level s = (Raise KeyError, s, []).
Proof.
  intros Hnot. destruct (ffmpeg_log_level_cases log_level) as [[Hin _] | [_ Hraise]].
  - contradiction.
  - now apply transform_video_bad_level.
Qed.

(** X9. Output present, [force] and [erase] both unset: a warning is
    logged and the function returns; the file system is unchanged and
    nothing but the metadata read is called. *)
Theorem skip_touches_nothing (input_file : string) (dry_run : bool)
    (log_level v : string) (s : fs) (n o : node content) (m : tags) (ms : list tags) :
  ffmpeg_log_level log_level = Ok v ->
  s !! input_file = Some n ->
  exif_get_metadata s input_file = Some (m :: ms) ->
  s !! output_file_of input_file = Some o ->
  let r := transform_video input_file dry_run false false log_level s in
  res_of r = Ok tt /\ fs_of r = s
  /\ events_of r =
       [announce input_file dry_run; GetMetadata input_file;
        detected input_file (datetags_of m);
        Log WARNING (quoted (output_file_of input_file) +:+
                     " already exists. Skipping transformation.")]
  /\ Forall (fun e => destructive e = false) (events_of r).
Proof.
  intros Hv Hin Hmeta Hout r. subst r.
  rewrite (transform_video_skip _ _ _ _ _ _ _ _ Hv Hin Hmeta _ Hout).
  split_and!; try reflexivity. repeat constructor.
Qed.

(** X10. Output absent, real run, tag writer succeeds: the transcoder is
    called with the command of line 27, the date tags of the input are
    written onto the output, the backup copy "<output>_original" is
    removed if it is there, and the function returns with no backup copy
    left.  [force] and [erase] play no part. *)
Theorem fresh_transcode_cleans_backup (input_file : string) (force erase : bool)
    (log_level v : string) (s s2 : fs) (n : node content) (m : tags) (ms : list tags) :
  ffmpeg_log_level log_level = Ok v ->
  s !! input_file = Some n ->
  exif_get_metadata s input_file = Some (m :: ms) ->
  let out := output_file_of input_file in
  let cmd := ffmpeg_command_of v input_file out in
  let backup := out +:+ "_original" in
  s !! out = None ->
  exif_set_tags out (datetags_of m) (shell_call cmd s) = Some s2 ->
  s2 !! backup <> Some Dir ->
  let r := transform_video input_file false force erase log_level s in
  res_of r = Ok tt
  /\ fs_of r = delete backup s2
  /\ fs_of r !! backup = None
  /\ events_of r =
       [announce input_file false; GetMetadata input_file;
        detected input_file (datetags_of m);
        Shell cmd; SetTags out (datetags_of m);
        Log DEBUG ("Removing exiftool renamed file " +:+ quoted backup)] ++
       match s2 !! backup with Some _ => [Remove backup] | None => [] end ++
       [Log INFO (quoted out +:+ " created")].
Proof.
  intros Hv Hin Hmeta out cmd backup Hout Hset Hb r. subst r out cmd backup.
  rewrite (transform_video_fresh _ _ _ _ _ _ _ _ Hv Hin Hmeta _ _ Hout).
  destruct (s2 !! (output_file_of input_file +:+ "_original")) as [[c |] |] eqn:Hbk.
  - rewrite (transcode_now_ok_cleanup _ _ _ _ _ c Hset Hbk).
    split_and!; try reflexivity. apply lookup_delete_eq.
  - contradiction.
  - rewrite (transcode_now_ok _ _ _ _ _ Hset Hbk).
    cbn [prepend res_of fs_of events_of fst snd app].
    split_and!; try reflexivity; [now rewrite delete_id | assumption].
Qed.

(** X11. When the tag writer raises after the transcoder ran, the
    exception escapes [transform_video]: the file system is what the
    transcoder left, the backup copy is not looked for and the "created"
    line is not logged. *)
Theorem tag_writer_failure_escapes (input_file : string) (force erase : bool)
    (log_level v : string) (s : fs) (n : node content) (m : tags) (ms : list tags) :
  ffmpeg_log_level log_level = Ok v ->
  s !! input_file = Some n ->
  exif_get_metadata s input_file = Some (m :: ms) ->
  let out := output_file_of input_file in
  let cmd := ffmpeg_command_of v input_file out in
  s !! out = None ->
  exif_set_tags out (datetags_of m) (shell_call cmd s) = None ->
  transform_video input_file false force erase log_level s =
  (Raise ExifToolError, shell_call cmd s,
   [announce input_file false; GetMetadata input_file;
    detected input_file (datetags_of m);
    Shell cmd; SetTags out (datetags_of m)]).
Proof.
  intros Hv Hin Hmeta out cmd Hout Hset. subst out cmd.
  rewrite (transform_video_fresh _ _ _ _ _ _ _ _ Hv Hin Hmeta _ _ Hout).
  now rewrite (transcode_now_tags_fail _ _ _ _ Hset).
Qed.

(** X12. When the metadata of an existing input cannot be read (the
    reader raises, or returns an empty list), the exception escapes
    before any decision is taken: the file system is unchanged and no
    file is removed, transcoded or tagged, whatever the flags. *)
Theorem metadata_failure_changes_nothing (input_file : string)
    (dry_run force erase : bool) (log_level v : string) (s : fs) (n : node content) :
  ffmpeg_log_level log_level = Ok v ->
  s !! input_file = Some n ->
  (exif_get_metadata s input_file = None \/ exif_get_metadata s input_file = Some []) ->
  let r := transform_video input_file dry_run force erase log_level s in
  (exists x, res_of r = Raise x) /\ fs_of r = s
  /\ events_of r = [announce input_file dry_run; GetMetadata input_file].
Proof.
  intros Hv Hin Hm r. subst r.
  destruct (transform_video_meta_fail input_file dry_run log_level v s force erase n
              Hv Hin Hm) as [x ->].
  split_and!; try reflexivity. now exists x.
Qed.

(** X13. [force] on an output path that is a directory: [os.remove]
    raises and the exception escapes; the transcoder is not started and
    the file system is unchanged. *)
Theorem force_on_directory_raises (input_file : string) (dry_run erase : bool)
    (log_level v : string) (s : fs) (n : node content) (m : tags) (ms : list tags) :
  ffmpeg_log_level log_level = Ok v ->
  s !! input_file = Some n ->
  exif_get_metadata s input_file = Some (m :: ms) ->
  s !! output_file_of input_file = Some Dir ->
  let r := transform_video input_file dry_run true erase log_level s in
  res_of r = Raise OSError /\ fs_of r = s
  /\ Forall (fun e => invokes_tool e = false) (events_of r).
Proof.
  intros Hv Hin Hmeta Hout r. subst r.
  rewrite (transform_video_force_dir _ _ _ _ _ _ _ _ Hv Hin Hmeta _ Hout).
  split_and!; try reflexivity. repeat constructor.
Qed.

(** X14. [transform_video] calls [os.remove] on three paths only: the
    output (under [force]), the input (under [erase] without [force]) and
    the backup copy (in a real run). *)
Theorem removes_only_three_paths (input_file : string) (dry_run force erase : bool)
    (log_level : string) (s : fs) (p : string) :
  In (Remove p) (events_of (transform_video input_file dry_run force erase log_level s)) ->
  (force = true /\ p = output_file_of input_file)
  \/ (force = false /\ erase = true /\ p = input_file)
  \/ (dry_run = false /\ p = output_file_of input_file +:+ "_original").
Proof. apply transform_video_removes. Qed.

(** X15. Without [erase], a file that passed the filter is never handed
    to [os.remove], in any branch and for any state of the disk. *)
Theorem input_kept_without_erase (input_file : string) (dry_run force : bool)
    (log_level : string) (s : fs) :
  supported_input_format input_file = true ->
  ~ In (Remove input_file)
      (events_of (transform_video input_file dry_run force false log_level s)).
Proof.
  intros Hsup H. destruct (output_names_unsupported input_file) as [H1 H2].
  apply transform_video_removes in H as [[_ E] | [[_ [E _]] | [_ E]]].
  - rewrite <- E in H1. congruence.
  - discriminate.
  - rewrite <- E in H2. congruence.
Qed.

(** X16. A dry run of [transform_video] starts neither the transcoder nor
    the tag writer, and every entry of the file system afterwards was
    there before, unchanged: files can only disappear. *)
Theorem dry_run_frame (input_file : string) (force erase : bool)
    (log_level : string) (s : fs) :
  let r := transform_video input_file true force erase log_level s in
  Forall (fun e => invokes_tool e = false) (events_of r) /\ fs_of r ⊆ s.
Proof. split; [apply dry_run_invokes_no_tool | apply dry_run_shrinks]. Qed.

(** The only shell command of the transcode step is the one it is given,
    and only in a real run. *)
Lemma transcode_now_shell (cmd out : string) (dry_run : bool) (t : tags) (s : fs)
    (c : string) :
  In (Shell c) (events_of (transcode_now cmd out dry_run t s)) ->
  dry_run = false /\ c = cmd.
Proof.
  destruct dry_run; [intros [] |].
  destruct (exif_set_tags out t (shell_call cmd s)) as [s2 |] eqn:Hset.
  - destruct (s2 !! (out +:+ "_original")) as [[x |] |] eqn:Hb.
    + rewrite (transcode_now_ok_cleanup _ _ _ _ _ x Hset Hb). in_cases H. now split.
    + rewrite (transcode_now_backup_dir _ _ _ _ _ Hset Hb). in_cases H. now split.
    + rewrite (transcode_now_ok _ _ _ _ _ Hset Hb). in_cases H. now split.
  - rewrite (transcode_now_tags_fail _ _ _ _ Hset). in_cases H. now split.
Qed.

(** X23. The transcoder is started only in a real run, only with the
    command of line 27, and only when the output is absent or [force] is
    set: an existing output is never overwritten without [force]. *)
Theorem transcoder_started_only_when_due (input_file : string)
    (dry_run force erase : bool) (log_level : string) (s : fs) (c : string) :
  In (Shell c) (events_of (transform_video input_file dry_run force erase log_level s)) ->
  dry_run = false
  /\ (s !! output_file_of input_file = None \/ force = true)
  /\ exists v, ffmpeg_log_level log_level = Ok v
               /\ c = ffmpeg_command_of v input_file (output_file_of input_file).
Proof.
  destruct (ffmpeg_log_level log_level) as [v | x] eqn:Hv.
  2:{ rewrite (transform_video_bad_level _ _ _ _ _ _ _ Hv). intros []. }
  destruct (s !! input_file) as [n |] eqn:Hin.
  2:{ rewrite (transform_video_missing _ _ _ _ _ _ _ Hv Hin). in_cases H. }
  destruct (exif_get_metadata s input_file) as [[|m ms] |] eqn:Hmeta.
  1,3: destruct (transform_video_meta_fail input_file dry_run log_level v s force erase n
                   Hv Hin ltac:(auto)) as [x ->]; in_cases H.
  destruct (s !! output_file_of input_file) as [o |] eqn:Hout.
  - destruct force.
    + destruct o as [x |].
      * rewrite (transform_video_force _ _ _ _ _ _ _ _ _ _ Hv Hin Hmeta Hout). cbv zeta.
        rewrite events_of_prepend. intros H. apply in_app_or in H as [H | H].
        -- revert H. in_cases H.
        -- apply transcode_now_shell in H as [-> ->]. split_and!; eauto.
      * rewrite (transform_video_force_dir _ _ _ _ _ _ _ _ Hv Hin Hmeta _ Hout).
        in_cases H.
    + destruct erase.
      * destruct n as [x |].
        -- rewrite (transform_video_erase _ _ _ _ _ _ _ _ _ Hv Hin Hmeta Hout). in_cases H.
        -- rewrite (transform_video_erase_dir _ _ _ _ _ _ _ _ Hv Hin Hmeta _ eq_refl Hout).
           in_cases H.
      * rewrite (transform_video_skip _ _ _ _ _ _ _ _ Hv Hin Hmeta _ Hout). in_cases H.
  - rewrite (transform_video_fresh _ _ _ _ _ _ _ _ Hv Hin Hmeta _ _ Hout).
    rewrite events_of_prepend. intros H. apply in_app_or in H as [H | H].
    + revert H. in_cases H.
    + apply transcode_now_shell in H as [-> ->]. split_and!; eauto.
Qed.

(** X24. A file that passed the filter is handed to [os.remove] only
    under [erase] without [force], and only when something exists at its
    output path at that moment (the test of line 42 is on the path alone:
    a file or a directory, whatever put it there). *)
Theorem erase_needs_existing_output (input_file : string) (dry_run force erase : bool)
    (log_level : string) (s : fs) :
  supported_input_format input_file = true ->
  In (Remove input_file)
     (events_of (transform_video input_file dry_run force erase log_level s)) ->
  erase = true /\ force = false /\ is_Some (s !! output_file_of input_file).
Proof.
  intros Hsup H. destruct (output_names_unsupported input_file) as [H1 H2].
  pose proof H as H'.
  apply transform_video_removes in H' as [[_ E] | [[-> [-> _]] | [_ E]]].
  - rewrite <- E in H1. congruence.
  - split_and!; try reflexivity.
    destruct (s !! output_file_of input_file) as [o |] eqn:Hout; [eauto |]. exfalso.
    destruct (ffmpeg_log_level log_level) as [v | x] eqn:Hv.
    2:{ rewrite (transform_video_bad_level _ _ _ _ _ _ _ Hv) in H. destruct H. }
    destruct (s !! input_file) as [n |] eqn:Hin.
    2:{ rewrite (transform_video_missing _ _ _ _ _ _ _ Hv Hin) in H. revert H. in_cases H. }
    destruct (exif_get_metadata s input_file) as [[|m ms] |] eqn:Hmeta.
    1,3: destruct (transform_video_meta_fail input_file dry_run log_level v s false true n
                     Hv Hin ltac:(auto)) as [x Hx]; rewrite Hx in H; revert H; in_cases H.
    rewrite (transform_video_fresh _ _ _ _ _ _ _ _ Hv Hin Hmeta _ _ Hout) in H.
    rewrite events_of_prepend in H. apply in_app_or in H as [H | H].
    + revert H. in_cases H.
    + apply transcode_now_removes in H as [_ E]. rewrite <- E in H2. congruence.
  - rewrite <- E in H2. congruence.
Qed.

(** ** Further properties of the loop and of [main] *)

(** X17. An exception raised while a file is processed ends the loop:
    the files after it are not looked at, and the run of the whole list
    is the run up to and including the failing file. *)
Theorem dispatch_stops_at_exception (before after : list string) (file : string)
    (dryrun force erase : bool) (log_level : string) (s : fs) (x : exn) :
  let r1 := dispatch_transformation before dryrun force erase log_level s in
  let rt := transform_video file dryrun force erase log_level (fs_of r1) in
  res_of r1 = Ok tt ->
  supported_input_format file = true ->
  res_of rt = Raise x ->
  dispatch_transformation (before ++ file :: after) dryrun force erase log_level s =
  (Raise x, fs_of rt, events_of r1 ++ events_of rt).
Proof.
  intros r1 rt Hok Hsup Hraise.
  assert (Hr1 : dispatch_transformation before dryrun force erase log_level s =
                (Ok tt, fs_of r1, events_of r1)).
  { rewrite (run_eta (dispatch_transformation _ _ _ _ _ s)). fold r1. now rewrite Hok. }
  assert (Hrt : transform_video file dryrun force erase log_level (fs_of r1) =
                (Raise x, fs_of rt, events_of rt)).
  { rewrite (run_eta (transform_video _ _ _ _ _ _)). fold rt. now rewrite Hraise. }
  rewrite dispatch_app, (bind_step _ _ _ _ _ _ Hr1), dispatch_cons, Hsup.
  now rewrite (bind_stop _ _ _ _ _ _ Hrt).
Qed.

(** X18. A list in which no name passes the filter is a no-op: no log
    line, no call, no change, not even when the log level is invalid. *)
Theorem dispatch_nothing_supported (l : list string) (dryrun force erase : bool)
    (log_level : string) (s : fs) :
  Forall (fun f => supported_input_format f = false) l ->
  dispatch_transformation l dryrun force erase log_level s = (Ok tt, s, []).
Proof.
  induction 1 as [|f l Hf _ IH]; [reflexivity |].
  now rewrite dispatch_unsupported.
Qed.

(** X19. Processing a concatenated list is processing its first part
    and, when that did not raise, its second part on the file system the
    first part left; when the first part raised, the second is not run. *)
Theorem dispatch_concat (l1 l2 : list string) (dryrun force erase : bool)
    (log_level : string) (s : fs) :
  let r1 := dispatch_transformation l1 dryrun force erase log_level s in
  dispatch_transformation (l1 ++ l2) dryrun force erase log_level s =
  match res_of r1 with
  | Ok _ => prepend (events_of r1)
              (dispatch_transformation l2 dryrun force erase log_level (fs_of r1))
  | Raise _ => r1
  end.
Proof.
  intros r1. rewrite dispatch_app. subst r1.
  destruct (dispatch_transformation l1 dryrun force erase log_level s)
    as [[[[] | x] s'] e1] eqn:E.
  - now rewrite (bind_step _ _ _ _ _ _ E).
  - now rewrite (bind_stop _ _ _ _ _ _ E).
Qed.

(** X20. When none of the listed files exists, the loop runs to its end,
    changes nothing and only writes to the log. *)
Theorem dispatch_all_missing (l : list string) (dryrun force erase : bool)
    (log_level v : string) (s : fs) :
  ffmpeg_log_level log_level = Ok v ->
  Forall (fun f => s !! f = None) l ->
  let r := dispatch_transformation l dryrun force erase log_level s in
  res_of r = Ok tt /\ fs_of r = s /\ Forall (fun e => is_log e = true) (events_of r).
Proof.
  intros Hv Hall. induction Hall as [|f l Hf _ IH]; cbv zeta in *.
  - split_and!; [reflexivity | reflexivity | constructor].
  - rewrite dispatch_cons. destruct (supported_input_format f).
    + rewrite (bind_step _ _ _ _ _ _ (transform_video_missing f dryrun force erase _ _ _ Hv Hf)).
      rewrite res_of_prepend, fs_of_prepend, events_of_prepend.
      destruct IH as (IH1 & IH2 & IH3). split_and!; [assumption | assumption |].
      apply Forall_app. split; [repeat constructor | assumption].
    + erewrite bind_step by reflexivity.
      rewrite res_of_prepend, fs_of_prepend, events_of_prepend. exact IH.
Qed.

(** The three ways [main] goes on after its six debug lines. *)
Lemma main_cases (dryrun force : bool) (log_level : string) (recursive erase : bool)
    (input_files : list string) (s : fs) :
  exists body : result unit * fs * list ev,
    (forall output_format,
       main output_format dryrun force log_level recursive erase input_files s =
       prepend (main_debug_log output_format dryrun force log_level recursive input_files)
         body)
    /\ ((exists l pre, body = prepend pre (dispatch_transformation l dryrun force erase log_level s)
                       /\ Forall (fun e => is_log e = true) pre)
        \/ exists msg, body = (Ok tt, s, [Log ERROR msg])).
Proof.
  destruct recursive.
  - destruct input_files as [|p [|q l]].
    + exists (Ok tt, s, [Log ERROR ("Only one path supported. Supplied " +:+
                                    quoted (str_list []))]).
      split; [| right; eexists; reflexivity].
      intros o. rewrite main_recursive_bad_count by (cbn; lia). reflexivity.
    + destruct (s !! p) as [[c |] |] eqn:Hp.
      * exists (Ok tt, s, [Log ERROR ("Path supplied is not a directory: " +:+ quoted p)]).
        split; [| right; eexists; reflexivity].
        intros o. rewrite main_recursive_not_dir by congruence. reflexivity.
      * exists (prepend
                  [Log INFO ("Transforming files recursively from root directory: " +:+
                             quoted p)]
                  (dispatch_transformation (collect_files (os_walk s p))
                     dryrun force erase log_level s)).
        split.
        -- intros o. rewrite (main_recursive_dir _ _ _ _ _ _ _ Hp).
           now rewrite prepend_prepend.
        -- left. eexists _, _. split; [reflexivity | repeat constructor].
      * exists (Ok tt, s, [Log ERROR ("Path supplied is not a directory: " +:+ quoted p)]).
        split; [| right; eexists; reflexivity].
        intros o. rewrite main_recursive_not_dir by congruence. reflexivity.
    + exists (Ok tt, s, [Log ERROR ("Only one path supported. Supplied " +:+
                                    quoted (str_list (p :: q :: l)))]).
      split; [| right; eexists; reflexivity].
      intros o. rewrite main_recursive_bad_count by (cbn; lia). reflexivity.
  - exists (dispatch_transformation input_files dryrun force erase log_level s). split.
    + intros o. apply main_flat.
    + left. exists input_files, []. split; [| constructor].
      now destruct (dispatch_transformation _ _ _ _ _ s) as [[? ?] ?].
Qed.

(** X21. With [--dryrun], a whole run of [main], recursive or not, starts
    neither the transcoder nor the tag writer, and leaves a file system
    in which every entry was there before, unchanged. *)
Theorem main_dry_run_frame (output_format : option string) (force : bool)
    (log_level : string) (recursive erase : bool) (input_files : list string) (s : fs) :
  let r := main output_format true force log_level recursive erase input_files s in
  Forall (fun e => invokes_tool e = false) (events_of r) /\ fs_of r ⊆ s.
Proof.
  intros r. subst r.
  destruct (main_cases true force log_level recursive erase input_files s)
    as [body [Hmain Hbody]].
  rewrite Hmain, events_of_prepend, fs_of_prepend.
  destruct Hbody as [[l [pre [-> Hpre]]] | [msg ->]].
  - rewrite events_of_prepend, fs_of_prepend.
    destruct (dispatch_dry_run l force erase log_level s) as [He Hs].
    split; [| exact Hs].
    apply Forall_app. split; [repeat constructor |].
    apply Forall_app. split; [| exact He].
    eapply Forall_impl; [exact Hpre |]. now intros [] H.
  - split; [| reflexivity]. apply Forall_app. split; repeat constructor.
Qed.

(** X22. [output_format] is only printed: two runs of [main] that differ
    in it alone return the same result, leave the same file system and
    make the same calls after the six debug lines. *)
Theorem output_format_is_ignored (dryrun force : bool) (log_level : string)
    (recursive erase : bool) (input_files : list string) (s : fs) :
  exists (res : result unit) (s' : fs) (rest : list ev),
    forall output_format,
      main output_format dryrun force log_level recursive erase input_files s =
      (res, s',
       main_debug_log output_format dryrun force log_level recursive input_files ++ rest).
Proof.
  destruct (main_cases dryrun force log_level recursive erase input_files s)
    as [body [Hmain _]].
  exists (res_of body), (fs_of body), (events_of body). intros o. now rewrite Hmain.
Qed.

(** ** Checks on concrete names *)

Example out_abMOV : output_file_of "a.b.MOV" = "a.b.MP4".
Proof. reflexivity. Qed.

Example out_mov : output_file_of "mov" = ".MP4".
Proof. reflexivity. Qed.

Example sup_clip_mov : supported_input_format "clip.mov" = true.
Proof. reflexivity. Qed.

Example sup_clip_txt : supported_input_format "clip.txt" = false.
Proof. reflexivity. Qed.

End Lifecycle.

Arguments res_of {content tagval A} r.
Arguments fs_of {content tagval A} r.
Arguments events_of {content tagval A} r.
Arguments prepend {content tagval A} e r.

(** ** The code run in the small world *)

(** C1. A dry run on "a.MOV" next to an existing "a.MP4", with [erase]
    set and [force] unset, returns normally with "a.MOV" gone from the
    file system: line 49 removes the input whatever [dry_run] says. *)
Theorem C1_dry_run_erase_deletes_input :
  let r := transform_video unit string demo_get_metadata demo_set_tags
             demo_shell_call demo_str_tags "a.MOV" true false true "INFO" demo_fs in
  demo_fs !! "a.MOV" = Some (File tt)
  /\ res_of r = Ok tt
  /\ fs_of r !! "a.MOV" = None
  /\ In (Remove "a.MOV") (events_of r).
Proof.
  cbv zeta.
  rewrite (transform_video_erase unit string demo_get_metadata demo_set_tags
             demo_shell_call demo_str_tags "a.MOV" true "INFO" "24" demo_fs tt
             (File tt) demo_tags []) by reflexivity.
  split_and!; [reflexivity | reflexivity | apply lookup_delete_eq |].
  cbn. do 4 right. now left.
Qed.

(** The same missing guard on line 45: a dry run with [force] removes the
    existing output and puts nothing in its place. *)
Example dry_run_force_deletes_output :
  let r := transform_video unit string demo_get_metadata demo_set_tags
             demo_shell_call demo_str_tags "a.MOV" true true false "INFO" demo_fs in
  demo_fs !! "a.MP4" = Some (File tt) /\ res_of r = Ok tt /\ fs_of r !! "a.MP4" = None.
Proof.
  cbv zeta.
  rewrite (transform_video_force unit string demo_get_metadata demo_set_tags
             demo_shell_call demo_str_tags "a.MOV" true false "INFO" "24" demo_fs
             (File tt) tt demo_tags []) by reflexivity.
  rewrite transcode_now_dry.
  split_and!; [reflexivity | reflexivity | apply lookup_delete_eq].
Qed.

(** C2 as it is written does not hold in a dry run: with [force] and
    [erase] both set, the existing "a.MP4" is removed, neither the
    transcoder nor the tag writer is started, and no "a.MP4" is there
    afterwards. *)
Lemma C2_dry_run_force_regenerates_nothing :
  let r := transform_video unit string demo_get_metadata demo_set_tags
             demo_shell_call demo_str_tags "a.MOV" true true true "INFO" demo_fs in
  demo_fs !! output_file_of "a.MOV" = Some (File tt)
  /\ In (Remove (output_file_of "a.MOV")) (events_of r)
  /\ Forall (fun e => invokes_tool e = false) (events_of r)
  /\ fs_of r !! output_file_of "a.MOV" = None.
Proof.
  cbv zeta.
  rewrite (transform_video_force unit string demo_get_metadata demo_set_tags
             demo_shell_call demo_str_tags "a.MOV" true true "INFO" "24" demo_fs
             (File tt) tt demo_tags []) by reflexivity.
  cbv zeta. rewrite transcode_now_dry.
  split_and!; [reflexivity | | repeat constructor | apply lookup_delete_eq].
  cbn. do 4 right. now left.
Qed.

Lemma C2_witness :
  fs_of (transform_video unit string demo_get_metadata demo_set_tags demo_shell_call
           demo_str_tags "a.MOV" false true true "INFO" demo_fs)
  = delete "a.MP4_original" (<["a.MP4" := File tt]> (delete "a.MP4" demo_fs)).
Proof.
  pose proof (C2_force_regenerates_in_real_run unit string demo_get_metadata
                demo_set_tags demo_shell_call demo_str_tags "a.MOV" true "INFO" "24"
                demo_fs (File tt) tt demo_tags []
                eq_refl eq_refl eq_refl eq_refl) as H.
  cbv zeta in H. destruct H as [H _].
  apply (H (<["a.MP4" := File tt]> (delete "a.MP4" demo_fs))).
  - reflexivity.
  - vm_compute. discriminate.
Defined.

(** With the table's line for the dotless i, a name ending in ".dıvx"
    passes the filter, as it does in Python. *)
Example sup_dotless_i :
  supported_input_format demo_unicode_upper "x.dıvx" = true
  /\ supported_input_format demo_unicode_upper "clip.ﬂv" = true
  /\ supported_input_format demo_unicode_upper "clip.avı" = true.
Proof. repeat split. Qed.

Lemma C3_witness :
  fs_of (transform_video unit string demo_get_metadata demo_set_tags demo_shell_call
           demo_str_tags "a.MOV" false false true "INFO" demo_fs)
  = delete "a.MOV" demo_fs.
Proof.
  apply (C3_erase_deletes_input_only demo_unicode_upper unit string demo_get_metadata
    demo_set_tags
           demo_shell_call demo_str_tags "a.MOV" false "INFO" "24" demo_fs tt
           (File tt) demo_tags []); reflexivity.
Defined.

Lemma C4_witness :
  supported_input_format demo_unicode_upper "clip.mov" = true <->
  exists e, In e allowed_extensions /\ eq_nocase "mov" e = true.
Proof.
  apply (C4_extension_filter demo_unicode_upper unit string demo_get_metadata
           demo_set_tags demo_shell_call demo_str_tags "clip.mov" "mov").
  - split; [reflexivity | right; exists "clip"; reflexivity].
  - reflexivity.
Defined.

Lemma C5_witness : output_file_of "a.b.MOV" = "a.b.MP4".
Proof. exact (C5_output_replaces_final_segment "a.b" "MOV" eq_refl). Defined.

Lemma C6_witness :
  fs_of (main demo_unicode_upper unit string demo_get_metadata demo_set_tags
    demo_shell_call demo_walk
           demo_str_list demo_str_tags None false false "INFO" true false
           ["a.MOV"; "media"] demo_fs) = demo_fs
  /\ fs_of (main demo_unicode_upper unit string demo_get_metadata demo_set_tags
    demo_shell_call demo_walk
              demo_str_list demo_str_tags None false false "INFO" true false
              ["a.MOV"] demo_fs) = demo_fs
  /\ main demo_unicode_upper unit string demo_get_metadata demo_set_tags demo_shell_call
    demo_walk
       demo_str_list demo_str_tags None false false "INFO" true false ["media"] demo_fs
     = prepend
         (main_debug_log string demo_str_list None false false "INFO" true ["media"] ++
          [Log INFO ("Transforming files recursively from root directory: " +:+
                     quoted "media")])
         (dispatch_transformation demo_unicode_upper unit string demo_get_metadata
           demo_set_tags
            demo_shell_call demo_str_tags ["media/a.MOV"; "media/a.MP4"]
            false false false "INFO" demo_fs).
Proof.
  split_and!.
  - apply (C6_recursive_configuration demo_unicode_upper unit string demo_get_metadata
    demo_set_tags
             demo_shell_call demo_walk demo_str_list demo_str_tags None false false
             false "INFO" ["a.MOV"; "media"] demo_fs).
    left. cbn. lia.
  - apply (C6_recursive_configuration demo_unicode_upper unit string demo_get_metadata
    demo_set_tags
             demo_shell_call demo_walk demo_str_list demo_str_tags None false false
             false "INFO" ["a.MOV"] demo_fs).
    right. exists "a.MOV". split; [reflexivity | discriminate].
  - apply (C6_recursive_configuration demo_unicode_upper unit string demo_get_metadata
    demo_set_tags
             demo_shell_call demo_walk demo_str_list demo_str_tags None false false
             false "INFO" ["media"] demo_fs); reflexivity.
Defined.

Lemma C7_witness :
  dispatch_transformation demo_unicode_upper unit string demo_get_metadata
    demo_set_tags demo_shell_call demo_str_tags ([] ++ "b.MOV" :: ["media"]) false false
      false "INFO" demo_fs
  = (Ok tt, demo_fs, missing_report string "b.MOV" false).
Proof.
  apply (C7_missing_input_skipped demo_unicode_upper unit string demo_get_metadata
    demo_set_tags
           demo_shell_call demo_str_tags [] ["media"] "b.MOV" false false false
           "INFO" "24" demo_fs); reflexivity.
Defined.

Lemma C9_witness :
  exists pre post,
    events_of (transform_video unit string demo_get_metadata demo_set_tags
                 demo_shell_call demo_str_tags "a.MOV" true false false "INFO" demo_fs)
    = pre ++ GetMetadata "a.MOV" :: post
    /\ Forall (fun e => destructive e = false) pre.
Proof.
  apply (C9_metadata_read_first unit string demo_get_metadata demo_set_tags
           demo_shell_call demo_str_tags "a.MOV" true false false "INFO" "24" demo_fs
           (File tt)); reflexivity.
Defined.

Lemma C10_witness :
  supported_input_format demo_unicode_upper "mov" = true /\ output_file_of "mov" = ".MP4".
Proof.
  apply (C10_dotless_name demo_unicode_upper "mov"); [reflexivity |].
  cbn. do 4 right. now left.
Defined.

(** ** The further properties at work in the small world *)

Lemma output_file_of_same_stem_witness :
  output_file_of "a.MOV" = output_file_of "a.AVI" <-> "a" = "a".
Proof. apply (output_file_of_same_stem "a" "MOV" "a" "AVI"); reflexivity. Defined.

Lemma walked_dotless_name_rejected_witness :
  supported_input_format demo_unicode_upper (os_path_join "media" "mov") = false.
Proof. apply (walked_dotless_name_rejected demo_unicode_upper "media" "mov");
  [discriminate | reflexivity]. Defined.

Lemma walked_name_same_verdict_witness :
  supported_input_format demo_unicode_upper (os_path_join "media" "a.MOV") =
    supported_input_format demo_unicode_upper "a.MOV".
Proof. apply (walked_name_same_verdict demo_unicode_upper "media" "a" "MOV").
  reflexivity. Defined.

Lemma unknown_log_level_raises_witness :
  transform_video unit string demo_get_metadata demo_set_tags demo_shell_call
    demo_str_tags "a.MOV" false false false "TRACE" demo_fs
  = (Raise KeyError, demo_fs, []).
Proof.
  apply unknown_log_level_raises. cbn.
  intros [H | [H | [H | [H | []]]]]; discriminate.
Defined.

Lemma skip_touches_nothing_witness :
  fs_of (transform_video unit string demo_get_metadata demo_set_tags demo_shell_call
           demo_str_tags "a.MOV" false false false "INFO" demo_fs) = demo_fs.
Proof.
  apply (skip_touches_nothing unit string demo_get_metadata demo_set_tags demo_shell_call
           demo_str_tags "a.MOV" false "INFO" "24" demo_fs (File tt) (File tt)
           demo_tags []); reflexivity.
Defined.

Lemma fresh_transcode_cleans_backup_witness :
  res_of (transform_video unit string demo_get_metadata demo_set_tags demo_shell_call
            demo_str_tags "a.MOV" false false false "INFO" (<["a.MOV" := File tt]> ∅))
  = Ok tt.
Proof.
  apply (fresh_transcode_cleans_backup unit string demo_get_metadata demo_set_tags
           demo_shell_call demo_str_tags "a.MOV" false false "INFO" "24"
           (<["a.MOV" := File tt]> ∅)
           (<["a.MP4" := File tt]> (<["a.MOV" := File tt]> ∅))
           (File tt) demo_tags []); try reflexivity.
  vm_compute. discriminate.
Defined.

Lemma tag_writer_failure_escapes_witness :
  res_of (transform_video unit string demo_get_metadata demo_set_tags demo_shell_call
            demo_str_tags "b.AVI" false false false "INFO" (<["b.AVI" := File tt]> ∅))
  = Raise ExifToolError.
Proof.
  rewrite (tag_writer_failure_escapes unit string demo_get_metadata demo_set_tags
             demo_shell_call demo_str_tags "b.AVI" false false "INFO" "24"
             (<["b.AVI" := File tt]> ∅) (File tt) demo_tags []); reflexivity.
Defined.

Lemma metadata_failure_changes_nothing_witness :
  fs_of (transform_video unit string demo_get_metadata demo_set_tags demo_shell_call
           demo_str_tags "media" false true true "INFO" demo_fs) = demo_fs.
Proof.
  apply (metadata_failure_changes_nothing unit string demo_get_metadata demo_set_tags
           demo_shell_call demo_str_tags "media" false true true "INFO" "24" demo_fs Dir);
    [reflexivity | reflexivity | left; reflexivity].
Defined.

Lemma force_on_directory_raises_witness :
  res_of (transform_video unit string demo_get_metadata demo_set_tags demo_shell_call
            demo_str_tags "a.MOV" false true false "INFO"
            (<["a.MOV" := File tt]> (<["a.MP4" := Dir]> ∅)))
  = Raise OSError.
Proof.
  apply (force_on_directory_raises unit string demo_get_metadata demo_set_tags
           demo_shell_call demo_str_tags "a.MOV" false false "INFO" "24"
           (<["a.MOV" := File tt]> (<["a.MP4" := Dir]> ∅)) (File tt) demo_tags []);
    reflexivity.
Defined.

Lemma removes_only_three_paths_witness :
  (true = true /\ "a.MP4" = output_file_of "a.MOV")
  \/ (true = false /\ false = true /\ "a.MP4" = "a.MOV")
  \/ (false = false /\ "a.MP4" = output_file_of "a.MOV" +:+ "_original").
Proof.
  apply (removes_only_three_paths unit string demo_get_metadata demo_set_tags
           demo_shell_call demo_str_tags "a.MOV" false true false "INFO" demo_fs "a.MP4").
  vm_compute. do 4 right. left. reflexivity.
Defined.

Lemma input_kept_without_erase_witness :
  ~ In (Remove "a.MOV")
      (events_of (transform_video unit string demo_get_metadata demo_set_tags
                    demo_shell_call demo_str_tags "a.MOV" false true false "INFO" demo_fs)).
Proof. apply (input_kept_without_erase demo_unicode_upper). reflexivity. Defined.

Lemma dispatch_stops_at_exception_witness :
  dispatch_transformation demo_unicode_upper unit string demo_get_metadata
    demo_set_tags demo_shell_call demo_str_tags ([] ++ "a.MOV" :: ["b.MOV"]) false false
      false "TRACE" demo_fs
  = (Raise KeyError, demo_fs, []).
Proof.
  apply (dispatch_stops_at_exception demo_unicode_upper unit string demo_get_metadata
    demo_set_tags
           demo_shell_call demo_str_tags [] ["b.MOV"] "a.MOV" false false false "TRACE"
           demo_fs KeyError); reflexivity.
Defined.

Lemma dispatch_nothing_supported_witness :
  dispatch_transformation demo_unicode_upper unit string demo_get_metadata
    demo_set_tags demo_shell_call demo_str_tags ["a.MP4"; "notes.txt"] false true true
      "INFO" demo_fs
  = (Ok tt, demo_fs, []).
Proof. apply dispatch_nothing_supported. repeat constructor. Defined.

Lemma dispatch_all_missing_witness :
  fs_of (dispatch_transformation demo_unicode_upper unit string demo_get_metadata
    demo_set_tags
           demo_shell_call demo_str_tags ["x.MOV"; "y.avi"; "z.txt"] false true true
           "INFO" demo_fs) = demo_fs.
Proof.
  apply (dispatch_all_missing demo_unicode_upper unit string demo_get_metadata
    demo_set_tags demo_shell_call
           demo_str_tags ["x.MOV"; "y.avi"; "z.txt"] false true true "INFO" "24" demo_fs);
    [reflexivity | repeat constructor].
Defined.

Lemma transcoder_started_only_when_due_witness :
  false = false
  /\ ((<["a.MOV" := File tt]> ∅ : gmap string (node unit)) !! output_file_of "a.MOV" = None
      \/ false = true)
  /\ exists v, ffmpeg_log_level "INFO" = Ok v
               /\ ffmpeg_command_of "24" "a.MOV" "a.MP4" =
                  ffmpeg_command_of v "a.MOV" (output_file_of "a.MOV").
Proof.
  apply (transcoder_started_only_when_due unit string demo_get_metadata demo_set_tags
           demo_shell_call demo_str_tags "a.MOV" false false false "INFO"
           (<["a.MOV" := File tt]> ∅) (ffmpeg_command_of "24" "a.MOV" "a.MP4")).
  vm_compute. do 3 right. left. reflexivity.
Defined.

Lemma erase_needs_existing_output_witness :
  true = true /\ false = false /\ is_Some (demo_fs !! output_file_of "a.MOV").
Proof.
  apply (erase_needs_existing_output demo_unicode_upper unit string demo_get_metadata
    demo_set_tags
           demo_shell_call demo_str_tags "a.MOV" false false true "INFO" demo_fs);
    [reflexivity |].
  vm_compute. do 4 right. left. reflexivity.
Defined.

End Tf.
